(** * dubbo-trial: RPC examples and serializers, verified against their specification

    The development embeds the Python sources of the repository:
    - [server/common.py]: the orjson message envelopes;
    - [server.py], [client.py]: the unary greeter;
    - [stream/server.py], [stream/client.py]: the client-streaming name processor;
    - [server/server.py], [server/client.py]: the bidirectional chat;
    - [demo/current_approach]: dataclasses with hand-written JSON serializers;
    - [demo/improved_approach]: Pydantic models with a format selector.

    External libraries (orjson, json, pydantic-core) are interfaces whose
    functions are parameters of the definitions that call them. *)

From Stdlib Require Import ZArith List String Ascii Bool Lia.
From stdpp Require Import base option list strings pretty gmap.

Set Warnings "-register-all".

Open Scope Z_scope.
Open Scope string_scope.

(** ** Python values and exceptions *)

(** A Python [bytes] object; a Rocq [string] is a sequence of 8-bit characters. *)
Abbreviation bytes := string.

(** The values that move through the serializers: what JSON can carry.
    A [dict] keeps its insertion order, as in Python. Floats are left out. *)
Inductive pyval : Type :=
| PNone
| PBool (b : bool)
| PInt (z : Z)
| PStr (s : string)
| PList (l : list pyval)
| PDict (d : list (string * pyval)).

(** The exceptions the modelled code can raise. *)
Inductive pyerr : Type :=
| JSONDecodeError
| JSONEncodeError
| UnicodeDecodeError
| KeyError (k : string)
| TypeError
| AttributeError
| ValueError
| ValidationError.

(** A computation that returns or raises. *)
Inductive result (A : Type) : Type :=
| Ok (a : A)
| Raise (e : pyerr).
Arguments Ok {A} a.
Arguments Raise {A} e.

Definition bind {A B : Type} (m : result A) (k : A -> result B) : result B :=
  match m with
  | Ok a => k a
  | Raise e => Raise e
  end.

Notation "'let!' x ':=' m 'in' k" := (bind m (fun x => k))
  (at level 10, x name, m at level 100, k at level 200).

(** [d.get(k)] on the association list of a dict. *)
Fixpoint dict_get (k : string) (d : list (string * pyval)) : option pyval :=
  match d with
  | [] => None
  | (k', v) :: d' => if String.eqb k k' then Some v else dict_get k d'
  end.

(** [d[k] = v]: replaces the value in place when the key exists, appends
    otherwise (insertion order is kept). *)
Fixpoint dict_set (k : string) (v : pyval) (d : list (string * pyval))
  : list (string * pyval) :=
  match d with
  | [] => [(k, v)]
  | (k', v') :: d' =>
      if String.eqb k k' then (k', v) :: d' else (k', v') :: dict_set k v d'
  end.

(** [obj[k]] with a string key: [KeyError] on a dict without the key,
    [TypeError] on every other JSON value. *)
Definition subscript (obj : pyval) (k : string) : result pyval :=
  match obj with
  | PDict d =>
      match dict_get k d with
      | Some v => Ok v
      | None => Raise (KeyError k)
      end
  | _ => Raise TypeError
  end.

(** [obj.get(k, default)]: only a dict has the method. *)
Definition get_default (obj : pyval) (k : string) (default : pyval) : result pyval :=
  match obj with
  | PDict d =>
      match dict_get k d with
      | Some v => Ok v
      | None => Ok default
      end
  | _ => Raise AttributeError
  end.

(** [bool(v)]: Python truthiness. *)
Definition truthy (v : pyval) : bool :=
  match v with
  | PNone => false
  | PBool b => b
  | PInt z => negb (Z.eqb z 0)
  | PStr s => negb (String.eqb s "")
  | PList l => match l with [] => false | _ => true end
  | PDict d => match d with [] => false | _ => true end
  end.

(** ** Python string built-ins

    A Python [str] is modelled by a Rocq [string] whose characters are the
    code points below 256. *)

Definition in_range (lo hi : nat) (c : ascii) : bool :=
  let n := nat_of_ascii c in (lo <=? n)%nat && (n <=? hi)%nat.

(** [str.lower] on one code point below 256: A-Z and the accented capitals
    (all of 0xC0-0xDE but the multiplication sign) move up by 32. *)
Definition lower_char (c : ascii) : ascii :=
  if in_range 65 90 c || (in_range 192 222 c && negb (nat_of_ascii c =? 215)%nat)
  then ascii_of_nat (nat_of_ascii c + 32)
  else c.

Fixpoint lower (s : string) : string :=
  match s with
  | EmptyString => EmptyString
  | String c s' => String (lower_char c) (lower s')
  end.

(** [needle in hay] for strings. *)
Fixpoint contains (needle hay : string) : bool :=
  String.prefix needle hay ||
  match hay with
  | EmptyString => false
  | String _ hay' => contains needle hay'
  end.

(** [s.split(sep)] scanning left to right: [skip] counts the characters of a
    separator just matched that are still to be dropped, [cur] holds the
    current piece reversed. *)
Fixpoint split_go (sep : string) (skip : nat) (cur : string) (s : string) : list string :=
  match s with
  | EmptyString => [String.rev cur]
  | String c s' =>
      match skip with
      | S k => split_go sep k cur s'
      | O =>
          if String.prefix sep s
          then String.rev cur :: split_go sep (String.length sep - 1) EmptyString s'
          else split_go sep 0 (String c cur) s'
      end
  end.

Definition split (sep s : string) : result (list string) :=
  match sep with
  | EmptyString => Raise ValueError
  | _ => Ok (split_go sep 0 EmptyString s)
  end.

Definition hex_digit (n : nat) : ascii :=
  if (n <? 10)%nat then ascii_of_nat (48 + n) else ascii_of_nat (87 + n).

(** [repr] of a string: single quotes unless the string has a single quote
    and no double quote; backslash, the chosen quote, tab, newline and
    carriage return are escaped, every other non-printable code point is
    written in hexadecimal. *)
Definition repr_char (q : ascii) (c : ascii) : string :=
  let n := nat_of_ascii c in
  let bs := ascii_of_nat 92 in
  if (n =? 92)%nat then String bs (String bs EmptyString)
  else if Ascii.eqb c q then String bs (String c EmptyString)
  else if (n =? 9)%nat then String bs "t"
  else if (n =? 10)%nat then String bs "n"
  else if (n =? 13)%nat then String bs "r"
  else if (n <? 32)%nat || in_range 127 160 c || (n =? 173)%nat
  then String bs (String "x" (String (hex_digit (n / 16)) (String (hex_digit (n mod 16)) EmptyString)))
  else String c EmptyString.

Fixpoint repr_chars (q : ascii) (s : string) : string :=
  match s with
  | EmptyString => EmptyString
  | String c s' => repr_char q c +:+ repr_chars q s'
  end.

Definition repr_str (s : string) : string :=
  let sq := ascii_of_nat 39 in
  let dq := ascii_of_nat 34 in
  let q := if contains (String sq EmptyString) s && negb (contains (String dq EmptyString) s)
           then dq else sq in
  String q (repr_chars q s +:+ String q EmptyString).

Fixpoint join (sep : string) (l : list string) : string :=
  match l with
  | [] => EmptyString
  | [x] => x
  | x :: l' => x +:+ sep +:+ join sep l'
  end.

(** [repr(v)] *)
Fixpoint repr (v : pyval) : string :=
  match v with
  | PNone => "None"
  | PBool true => "True"
  | PBool false => "False"
  | PInt z => pretty z
  | PStr s => repr_str s
  | PList l => "[" +:+ join ", " (map repr l) +:+ "]"
  | PDict d =>
      "{" +:+ join ", " (map (fun kv => repr_str (fst kv) +:+ ": " +:+ repr (snd kv)) d) +:+ "}"
  end.

(** What an f-string puts for [{v}]: [str(v)]. *)
Definition py_format (v : pyval) : string :=
  match v with
  | PStr s => s
  | _ => repr v
  end.

(** What a generator or a loop does that its caller can see. *)
Inductive event : Type :=
| Print (line : string)
| Yield (value : string).

Fixpoint yields (tr : list event) : list string :=
  match tr with
  | [] => []
  | Yield v :: tr' => v :: yields tr'
  | Print _ :: tr' => yields tr'
  end.

(** ** Library interfaces *)

(** A JSON library: a writer from values to bytes and a reader back.
    Either may raise. [orjson.dumps]/[orjson.loads] is one instance,
    [json.dumps(..).encode("utf-8")]/[json.loads(..decode("utf-8"))] another. *)
Record TextCodec : Type := {
  dumps : pyval -> result bytes;
  loads : bytes -> result pyval
}.

(** The codec carries [v] when writing it succeeds and reading the bytes
    gives [v] back: this is what JSON-representable means for a library. *)
Definition roundtrips (c : TextCodec) (v : pyval) : Prop :=
  exists b, dumps c v = Ok b /\ loads c b = Ok v.

(** [r] reads what [w] writes for [v]. *)
Definition reads_back (w r : TextCodec) (v : pyval) : Prop :=
  exists b, dumps w v = Ok b /\ loads r b = Ok v.

(** ** server/common.py *)

Module Common.

Record RequestMessage : Type := {
  method : pyval;
  params : pyval
}.

Record ResponseMessage : Type := {
  result_ : pyval
}.

Definition request_obj (m : RequestMessage) : pyval :=
  PDict [("method", method m); ("params", params m)].

Definition response_obj (r : ResponseMessage) : pyval :=
  PDict [("result", result_ r)].

Section Orjson.
Variable orjson : TextCodec.

(** [RequestMessage.serialize] *)
Definition serialize (m : RequestMessage) : result bytes :=
  dumps orjson (request_obj m).

(** [RequestMessage.deserialize] *)
Definition deserialize (data : bytes) : result RequestMessage :=
  let! obj := loads orjson data in
  let! m := subscript obj "method" in
  let! p := subscript obj "params" in
  Ok {| method := m; params := p |}.

(** [ResponseMessage.serialize] *)
Definition serialize_response (r : ResponseMessage) : result bytes :=
  dumps orjson (response_obj r).

(** [ResponseMessage.deserialize] *)
Definition deserialize_response (data : bytes) : result ResponseMessage :=
  let! obj := loads orjson data in
  let! r := subscript obj "result" in
  Ok {| result_ := r |}.
End Orjson.

End Common.

(** ** A reference JSON reader and writer

    An executable instance of [TextCodec] for the JSON subset whose strings
    are printable ASCII: null, booleans, integers, strings, arrays and
    objects. It instantiates the library parameters on concrete inputs. *)

Module RefJson.

Definition quote : ascii := ascii_of_nat 34.
Definition backslash : ascii := ascii_of_nat 92.

Definition printable (c : ascii) : bool :=
  let n := nat_of_ascii c in (32 <=? n)%nat && (n <=? 126)%nat.

Definition is_digit (c : ascii) : bool :=
  let n := nat_of_ascii c in (48 <=? n)%nat && (n <=? 57)%nat.

Definition is_space (c : ascii) : bool :=
  let n := nat_of_ascii c in
  (n =? 32)%nat || (n =? 9)%nat || (n =? 10)%nat || (n =? 13)%nat.

Definition is_letter (c : ascii) : bool :=
  let n := nat_of_ascii c in (97 <=? n)%nat && (n <=? 122)%nat.

(** *** Writer *)

Fixpoint write_chars (s : string) : result string :=
  match s with
  | EmptyString => Ok EmptyString
  | String c s' =>
      let! r := write_chars s' in
      if Ascii.eqb c quote || Ascii.eqb c backslash
      then Ok (String backslash (String c r))
      else if printable c then Ok (String c r)
      else Raise JSONEncodeError
  end.

Definition write_string (s : string) : result string :=
  let! r := write_chars s in
  Ok (String quote (r +:+ String quote EmptyString)).

Section Writer.
Variables item_sep key_sep : string.

Fixpoint write (v : pyval) : result string :=
  match v with
  | PNone => Ok "null"
  | PBool true => Ok "true"
  | PBool false => Ok "false"
  | PInt z => Ok (pretty z)
  | PStr s => write_string s
  | PList l =>
      let! body := (fix items (l : list pyval) : result string :=
                 match l with
                 | [] => Ok ""
                 | [x] => write x
                 | x :: l' =>
                     let! a := write x in
                     let! b := items l' in
                     Ok (a +:+ item_sep +:+ b)
                 end) l in
      Ok ("[" +:+ body +:+ "]")
  | PDict d =>
      let! body := (fix members (d : list (string * pyval)) : result string :=
                 match d with
                 | [] => Ok ""
                 | [(k, x)] =>
                     let! a := write_string k in
                     let! b := write x in
                     Ok (a +:+ key_sep +:+ b)
                 | (k, x) :: d' =>
                     let! a := write_string k in
                     let! b := write x in
                     let! c := members d' in
                     Ok (a +:+ key_sep +:+ b +:+ item_sep +:+ c)
                 end) d in
      Ok ("{" +:+ body +:+ "}")
  end.
End Writer.

(** *** Lexer: one pass over the characters *)

Inductive token : Type :=
| TLBrace | TRBrace | TLBrack | TRBrack | TColon | TComma
| TStr (s : string)
| TInt (z : Z)
| TTrue | TFalse | TNull.

Inductive lex_state : Type :=
| LIdle
| LStr (acc : string) (escaped : bool)
| LNum (negative : bool) (digits : list nat)
| LWord (acc : string).

Definition digit_value (c : ascii) : nat := (nat_of_ascii c - 48)%nat.

(** Value of a digit sequence kept most-significant last. *)
Fixpoint digits_value (ds : list nat) : Z :=
  match ds with
  | [] => 0
  | d :: ds' => Z.of_nat d + 10 * digits_value ds'
  end.

Definition number_token (negative : bool) (digits : list nat) : option token :=
  match rev digits with
  | [] => None
  | O :: _ :: _ => None
  | _ =>
      let n := digits_value digits in
      Some (TInt (if negative then - n else n))
  end.

Definition word_token (w : string) : option token :=
  if String.eqb w "true" then Some TTrue
  else if String.eqb w "false" then Some TFalse
  else if String.eqb w "null" then Some TNull
  else None.

Definition idle_step (c : ascii) : option (list token * lex_state) :=
  if is_space c then Some ([], LIdle)
  else if Ascii.eqb c quote then Some ([], LStr "" false)
  else if Ascii.eqb c "-" then Some ([], LNum true [])
  else if is_digit c then Some ([], LNum false [digit_value c])
  else if is_letter c then Some ([], LWord (String c ""))
  else if Ascii.eqb c "{" then Some ([TLBrace], LIdle)
  else if Ascii.eqb c "}" then Some ([TRBrace], LIdle)
  else if Ascii.eqb c "[" then Some ([TLBrack], LIdle)
  else if Ascii.eqb c "]" then Some ([TRBrack], LIdle)
  else if Ascii.eqb c ":" then Some ([TColon], LIdle)
  else if Ascii.eqb c "," then Some ([TComma], LIdle)
  else None.

Definition lex_step (st : lex_state) (c : ascii) : option (list token * lex_state) :=
  match st with
  | LIdle => idle_step c
  | LStr acc true =>
      if Ascii.eqb c quote || Ascii.eqb c backslash || Ascii.eqb c "/"
      then Some ([], LStr (String c acc) false)
      else None
  | LStr acc false =>
      if Ascii.eqb c quote then Some ([TStr (String.rev acc)], LIdle)
      else if Ascii.eqb c backslash then Some ([], LStr acc true)
      else if printable c then Some ([], LStr (String c acc) false)
      else None
  | LNum negative digits =>
      if is_digit c then Some ([], LNum negative (digit_value c :: digits))
      else
        match number_token negative digits, idle_step c with
        | Some t, Some (ts, st') => Some (t :: ts, st')
        | _, _ => None
        end
  | LWord acc =>
      if is_letter c then Some ([], LWord (String c acc))
      else
        match word_token (String.rev acc), idle_step c with
        | Some t, Some (ts, st') => Some (t :: ts, st')
        | _, _ => None
        end
  end.

Definition lex_finish (st : lex_state) : option (list token) :=
  match st with
  | LIdle => Some []
  | LStr _ _ => None
  | LNum negative digits => t ← number_token negative digits; Some [t]
  | LWord acc => t ← word_token (String.rev acc); Some [t]
  end.

Fixpoint lex (st : lex_state) (s : string) : option (list token) :=
  match s with
  | EmptyString => lex_finish st
  | String c s' =>
      match lex_step st c with
      | Some (ts, st') => rest ← lex st' s'; Some (ts ++ rest)%list
      | None => None
      end
  end.

(** *** Parser over the tokens; the fuel bounds the nesting and length *)

Fixpoint parse_value (fuel : nat) (ts : list token) : option (pyval * list token) :=
  match fuel with
  | O => None
  | S f =>
      match ts with
      | TNull :: r => Some (PNone, r)
      | TTrue :: r => Some (PBool true, r)
      | TFalse :: r => Some (PBool false, r)
      | TInt z :: r => Some (PInt z, r)
      | TStr s :: r => Some (PStr s, r)
      | TLBrack :: TRBrack :: r => Some (PList [], r)
      | TLBrack :: r =>
          match parse_elems f r with
          | Some (vs, r') => Some (PList vs, r')
          | None => None
          end
      | TLBrace :: TRBrace :: r => Some (PDict [], r)
      | TLBrace :: r =>
          match parse_members f r with
          | Some (kvs, r') =>
              Some (PDict (fold_left (fun d kv => dict_set (fst kv) (snd kv) d) kvs []), r')
          | None => None
          end
      | _ => None
      end
  end
with parse_elems (fuel : nat) (ts : list token) : option (list pyval * list token) :=
  match fuel with
  | O => None
  | S f =>
      match parse_value f ts with
      | Some (v, TComma :: r) =>
          match parse_elems f r with
          | Some (vs, r') => Some (v :: vs, r')
          | None => None
          end
      | Some (v, TRBrack :: r) => Some ([v], r)
      | _ => None
      end
  end
with parse_members (fuel : nat) (ts : list token)
  : option (list (string * pyval) * list token) :=
  match fuel with
  | O => None
  | S f =>
      match ts with
      | TStr k :: TColon :: r =>
          match parse_value f r with
          | Some (v, TComma :: r') =>
              match parse_members f r' with
              | Some (kvs, r'') => Some ((k, v) :: kvs, r'')
              | None => None
              end
          | Some (v, TRBrace :: r') => Some ([(k, v)], r')
          | _ => None
          end
      | _ => None
      end
  end.

Definition read (data : bytes) : result pyval :=
  match lex LIdle data with
  | Some ts =>
      match parse_value (S (length ts)) ts with
      | Some (v, []) => Ok v
      | _ => Raise JSONDecodeError
      end
  | None => Raise JSONDecodeError
  end.

(** [json.dumps] with its default separators, then [json.loads]. *)
Definition json : TextCodec := {| dumps := write ", " ": "; loads := read |}.

(** The compact writers of orjson and pydantic-core. *)
Definition compact : TextCodec := {| dumps := write "," ":"; loads := read |}.

End RefJson.

Fixpoint traverse {A B : Type} (f : A -> result B) (l : list A) : result (list B) :=
  match l with
  | [] => Ok []
  | x :: l' =>
      let! y := f x in
      let! ys := traverse f l' in
      Ok (y :: ys)
  end.

(** ** The streaming call runtime

    The sources call the dubbo package ([dubbo.Client], [dubbo.Server],
    [RpcMethodHandler], [RpcServiceHandler]), which is not part of the
    repository. The definitions of this module follow the specification. *)

Module Runtime.
Import Common.

(** Modelled from the spec: the error taxonomy of section 7; the dubbo
    runtime that raises them is missing from the sources. *)
Inductive StreamError : Type :=
| StreamClosed
| StreamAborted
| DecodeError
| MethodNotFound
| ProtocolViolation
| CallbackFailure (e : pyerr).

(** Modelled from the spec: the three read outcomes of section 6. *)
Inductive ReadOutcome (T : Type) : Type :=
| Message (m : T)
| EndOfStream
| Timeout.
Arguments Message {T} m.
Arguments EndOfStream {T}.
Arguments Timeout {T}.

(** Modelled from the spec: the Stream of section 3, one endpoint's view
    of a call: two queues, two close flags and the terminal-error slot. *)
Record Stream (In Out : Type) : Type := {
  inbound : list In;
  inbound_closed : bool;
  outbound : list Out;
  outbound_closed : bool;
  terminal_error : option StreamError
}.
Arguments inbound {In Out} s.
Arguments inbound_closed {In Out} s.
Arguments outbound {In Out} s.
Arguments outbound_closed {In Out} s.
Arguments terminal_error {In Out} s.

Section Operations.
Context {In Out : Type}.

(** Modelled from the spec: the Stream of a call that has just begun
    (section 3, lifecycle). *)
Definition new_stream : Stream In Out :=
  {| inbound := []; inbound_closed := false;
     outbound := []; outbound_closed := false; terminal_error := None |}.

(** Modelled from the spec: [write] of section 4.1. *)
Definition write (msg : Out) (s : Stream In Out) : StreamError + Stream In Out :=
  match terminal_error s with
  | Some _ => inl StreamAborted
  | None =>
      if outbound_closed s then inl StreamClosed
      else inr {| inbound := inbound s; inbound_closed := inbound_closed s;
                  outbound := outbound s ++ [msg];
                  outbound_closed := false; terminal_error := None |}
  end.

(** Modelled from the spec: [close_write] of section 4.1, idempotent. *)
Definition close_write (s : Stream In Out) : Stream In Out :=
  {| inbound := inbound s; inbound_closed := inbound_closed s;
     outbound := outbound s; outbound_closed := true;
     terminal_error := terminal_error s |}.

(** Modelled from the spec: [abort] of section 4.1; the slot is set at
    most once. *)
Definition abort (err : StreamError) (s : Stream In Out) : Stream In Out :=
  {| inbound := inbound s; inbound_closed := true;
     outbound := outbound s; outbound_closed := true;
     terminal_error := match terminal_error s with
                       | Some e => Some e
                       | None => Some err
                       end |}.

(** Modelled from the spec: [read] of section 4.1 at the moment the wait
    ends: a buffered message first, then end-of-stream; [Timeout] when
    the direction is open and empty. *)
Definition read (s : Stream In Out) : StreamError + (ReadOutcome In * Stream In Out) :=
  match terminal_error s with
  | Some _ => inl StreamAborted
  | None =>
      match inbound s with
      | m :: rest =>
          inr (Message m,
               {| inbound := rest; inbound_closed := inbound_closed s;
                  outbound := outbound s; outbound_closed := outbound_closed s;
                  terminal_error := None |})
      | [] => inr (if inbound_closed s then EndOfStream else Timeout, s)
      end
  end.

(** Modelled from the spec: the producer side of the inbound direction
    (sections 1 and 3): the transport delivers a message in order; nothing
    is enqueued once the direction is closed. *)
Definition deliver (m : In) (s : Stream In Out) : Stream In Out :=
  if inbound_closed s then s
  else {| inbound := inbound s ++ [m]; inbound_closed := false;
          outbound := outbound s; outbound_closed := outbound_closed s;
          terminal_error := terminal_error s |}.

(** Modelled from the spec: the transport signals the peer's end-of-stream
    (section 1). *)
Definition deliver_end (s : Stream In Out) : Stream In Out :=
  {| inbound := inbound s; inbound_closed := true;
     outbound := outbound s; outbound_closed := outbound_closed s;
     terminal_error := terminal_error s |}.

(** Modelled from the spec: the callback consumed the whole inbound
    sequence (section 4.3). *)
Definition consumed (s : Stream In Out) : Stream In Out :=
  {| inbound := []; inbound_closed := inbound_closed s;
     outbound := outbound s; outbound_closed := outbound_closed s;
     terminal_error := terminal_error s |}.
End Operations.

(** Modelled from the spec: the user callback of section 4.3 for the Unary
    and ClientStreaming shapes (the bidirectional shape is not modelled
    here); requests are decoded messages, responses are strings. *)
Inductive Callback : Type :=
| UnaryCallback (f : RequestMessage -> result string)
| ClientStreamCallback (f : list RequestMessage -> result string).

(** Modelled from the spec: MethodHandler and ServiceHandler of section 3. *)
Record MethodHandler : Type := {
  method_name : string;
  callback : Callback;
  request_decode : bytes -> result RequestMessage;
  response_encode : string -> result bytes
}.

(** Modelled from the spec: a ServiceHandler groups the MethodHandlers of
    one service name (section 3). *)
Record ServiceHandler : Type := {
  service_name : string;
  method_handlers : list MethodHandler
}.

(** Modelled from the spec: what the abstract transport of section 1 brings
    from the client, a byte frame or the end-of-stream signal. *)
Inductive frame : Type :=
| Frame (data : bytes)
| EndFrame.

(** Modelled from the spec: the server's Stream of a call, decoded requests
    in and encoded responses out (section 4.3). *)
Definition ServerStream : Type := Stream RequestMessage bytes.

(** Modelled from the spec: the callback finished; its response is encoded
    and written and the outbound direction is closed, a failure becomes
    the terminal error (section 4.3). *)
Definition finish (h : MethodHandler) (r : result string) (s : ServerStream)
  : ServerStream :=
  match r with
  | Raise e => abort (CallbackFailure e) s
  | Ok resp =>
      match response_encode h resp with
      | Raise e => abort (CallbackFailure e) s
      | Ok b =>
          match write b s with
          | inl _ => s
          | inr s' => close_write s'
          end
      end
  end.

(** Modelled from the spec: one step of the Dispatcher of section 4.3 on
    the Stream of a call. A frame is decoded as it arrives; a Unary call
    with a second request, or with none at end-of-stream, is aborted with
    [ProtocolViolation]. *)
Definition on_frame (h : MethodHandler) (s : ServerStream) (fr : frame) : ServerStream :=
  match terminal_error s with
  | Some _ => s
  | None =>
      if inbound_closed s then s
      else
        match fr with
        | Frame data =>
            match request_decode h data with
            | Raise _ => abort DecodeError s
            | Ok request =>
                let s' := deliver request s in
                match callback h with
                | UnaryCallback _ =>
                    if (2 <=? length (inbound s'))%nat
                    then abort ProtocolViolation s' else s'
                | ClientStreamCallback _ => s'
                end
            end
        | EndFrame =>
            let s' := deliver_end s in
            match callback h with
            | UnaryCallback f =>
                match inbound s' with
                | [request] => finish h (f request) (consumed s')
                | _ => abort ProtocolViolation s'
                end
            | ClientStreamCallback f => finish h (f (inbound s')) (consumed s')
            end
        end
  end.

(** Modelled from the spec: the Dispatcher drives a handler against a fresh
    Stream, frame by frame in arrival order (section 4.3). *)
Definition serve (h : MethodHandler) (frames : list frame) : ServerStream :=
  fold_left (on_frame h) frames new_stream.

(** Modelled from the spec: names are matched exactly, case-sensitively
    (section 6). *)
Fixpoint find_method (name : string) (hs : list MethodHandler) : option MethodHandler :=
  match hs with
  | [] => None
  | h :: hs' => if String.eqb (method_name h) name then Some h else find_method name hs'
  end.

(** Modelled from the spec: service names are matched exactly (section 6). *)
Fixpoint find_service (name : string) (svcs : list ServiceHandler) : option ServiceHandler :=
  match svcs with
  | [] => None
  | sv :: svcs' => if String.eqb (service_name sv) name then Some sv else find_service name svcs'
  end.

(** Modelled from the spec: the Dispatcher resolves the call by exact
    service and method name, [MethodNotFound] otherwise. *)
Definition dispatch (svcs : list ServiceHandler) (service method : string)
    (frames : list frame) : StreamError + ServerStream :=
  match find_service service svcs with
  | None => inl MethodNotFound
  | Some sv =>
      match find_method method (method_handlers sv) with
      | None => inl MethodNotFound
      | Some h => inr (serve h frames)
      end
  end.

(** Modelled from the spec: the client's end of the same call; what the
    server wrote is what the client reads, in write order (section 5). *)
Definition client_view (s : ServerStream) : Stream bytes bytes :=
  {| inbound := outbound s; inbound_closed := outbound_closed s;
     outbound := []; outbound_closed := inbound_closed s;
     terminal_error := terminal_error s |}.

(** Modelled from the spec: what a stub call gives back to the caller
    (section 4.4): the decoded response, the failure of the call, a local
    exception, or nothing when the stream ends without a response. *)
Inductive CallResult : Type :=
| Returned (v : pyval)
| CallFailed (e : StreamError)
| Raised (e : pyerr)
| NoResponse.

(** Modelled from the spec: the StubInvoker of section 4.4 once the
    requests are written and the write side is closed: it reads one
    response and decodes it. *)
Definition read_response (response_decode : bytes -> result pyval)
    (r : StreamError + ServerStream) : CallResult :=
  match r with
  | inl e => CallFailed e
  | inr s =>
      match read (client_view s) with
      | inl e =>
          match terminal_error s with
          | Some cause => CallFailed cause
          | None => CallFailed e
          end
      | inr (Message b, _) =>
          match response_decode b with
          | Ok v => Returned v
          | Raise e => Raised e
          end
      | inr (_, _) => NoResponse
      end
  end.

(** Modelled from the spec: a Unary stub serializes one request, writes it
    and closes the write side, then reads the response. *)
Definition unary_call (svcs : list ServiceHandler) (service method : string)
    (request_encode : string -> result bytes)
    (response_decode : bytes -> result pyval) (arg : string) : CallResult :=
  match request_encode arg with
  | Raise e => Raised e
  | Ok b => read_response response_decode (dispatch svcs service method [Frame b; EndFrame])
  end.

(** Modelled from the spec: a ClientStreaming stub serializes and writes
    each request in order, closes the write side and reads the single
    response. *)
Definition client_stream_call (svcs : list ServiceHandler) (service method : string)
    (request_encode : string -> result bytes)
    (response_decode : bytes -> result pyval) (args : list string) : CallResult :=
  match traverse request_encode args with
  | Raise e => Raised e
  | Ok bs =>
      read_response response_decode
        (dispatch svcs service method (map Frame bs ++ [EndFrame]))
  end.

End Runtime.

(** ** server.py and client.py: the unary greeter *)

Module Greeter.
Import Common.

(** [GreeterServicer.say_hello] *)
Definition say_hello (request : RequestMessage) : result string :=
  let! name := get_default (params request) "name" (PStr "Guest") in
  Ok ("Hello, " +:+ py_format name +:+ "!").

Section Orjson.
Variable orjson : TextCodec.

(** server.py *)
Definition request_deserializer (data : bytes) : result RequestMessage :=
  deserialize orjson data.

Definition response_serializer (res : string) : result bytes :=
  serialize_response orjson {| result_ := PStr res |}.

(** client.py *)
Definition request_serializer (name : string) : result bytes :=
  serialize orjson {| method := PStr "sayHello"; params := PDict [("name", PStr name)] |}.

Definition response_deserializer (data : bytes) : result pyval :=
  let! r := deserialize_response orjson data in
  Ok (result_ r).

(** [build_service_handler] of server.py *)
Definition build_service_handler : Runtime.ServiceHandler :=
  {| Runtime.service_name := "example.GreeterService";
     Runtime.method_handlers :=
       [{| Runtime.method_name := "sayHello";
           Runtime.callback := Runtime.UnaryCallback say_hello;
           Runtime.request_decode := request_deserializer;
           Runtime.response_encode := response_serializer |}] |}.

(** [GreeterServiceStub.say_hello] of client.py against a server that
    registers [build_service_handler]; the reference URL names the
    service. *)
Definition stub_say_hello (name : string) : Runtime.CallResult :=
  Runtime.unary_call [build_service_handler] "example.GreeterService" "sayHello"
    request_serializer response_deserializer name.
End Orjson.

End Greeter.

(** ** stream/server.py and stream/client.py: client streaming *)

Module Streaming.
Import Common.

(** The loop of [StreamingServicer.process_names]: [combined_names] is the
    accumulator, [out] what was printed so far. *)
Fixpoint process_loop (combined_names : string) (out : list event)
    (request_iterator : list RequestMessage) : list event * result string :=
  match request_iterator with
  | [] => (out, Ok combined_names)
  | request :: rest =>
      match get_default (params request) "name" (PStr "") with
      | Raise e => (out, Raise e)
      | Ok name =>
          let out' := (out ++ [Print ("Received name: " +:+ py_format name)])%list in
          let combined_names' :=
            if negb (String.eqb combined_names "")
            then combined_names +:+ ", " else combined_names in
          match name with
          | PStr n => process_loop (combined_names' +:+ n) out' rest
          | _ => (out', Raise TypeError)
          end
      end
  end.

(** [StreamingServicer.process_names] *)
Definition process_names (request_iterator : list RequestMessage)
  : list event * result string :=
  let (out, r) := process_loop "" [] request_iterator in
  (out,
   let! combined_names := r in
   let! pieces := split ", " combined_names in
   Ok ("Processed " +:+ pretty (length pieces) +:+ " names: " +:+ combined_names)).

Section Orjson.
Variable orjson : TextCodec.

Definition request_deserializer (data : bytes) : result RequestMessage :=
  deserialize orjson data.

Definition response_serializer (res : string) : result bytes :=
  serialize_response orjson {| result_ := PStr res |}.

Definition request_serializer (name : string) : result bytes :=
  serialize orjson {| method := PStr "processNames"; params := PDict [("name", PStr name)] |}.

Definition response_deserializer (data : bytes) : result pyval :=
  let! r := deserialize_response orjson data in
  Ok (result_ r).

(** [build_service_handler] of stream/server.py *)
Definition build_service_handler : Runtime.ServiceHandler :=
  {| Runtime.service_name := "example.StreamingService";
     Runtime.method_handlers :=
       [{| Runtime.method_name := "processNames";
           Runtime.callback :=
             Runtime.ClientStreamCallback (fun it => snd (process_names it));
           Runtime.request_decode := request_deserializer;
           Runtime.response_encode := response_serializer |}] |}.

(** [StreamingServiceStub.process_names] of stream/client.py *)
Definition stub_process_names (names : list string) : Runtime.CallResult :=
  Runtime.client_stream_call [build_service_handler] "example.StreamingService"
    "processNames" request_serializer response_deserializer names.
End Orjson.

End Streaming.

(** ** server/server.py and server/client.py: bidirectional chat *)

Module Chat.
Import Common.

(** The if/elif chain of [ChatServicer.chat] on a string message. *)
Definition respond (message : string) : string :=
  if contains "hello" (lower message) then "Hello! Welcome to our service!"
  else if contains "how are you" (lower message) then "I'm doing well, thank you for asking!"
  else if contains "services" (lower message)
  then "We provide various streaming examples for Dubbo Python."
  else if contains "thank you" (lower message)
  then "You're welcome! Anything else I can help with?"
  else if contains "goodbye" (lower message) then "Goodbye! Have a great day!"
  else "I received your message: '" +:+ message +:+ "'".

(** One iteration of the loop: what is printed and yielded for [request],
    or the exception that ends the generator. *)
Definition chat_step (message_count : nat) (request : RequestMessage)
  : list event * option pyerr :=
  match get_default (params request) "message" (PStr "") with
  | Raise e => ([], Some e)
  | Ok message =>
      let line := Print ("Received message #" +:+ pretty message_count +:+ ": "
                         +:+ py_format message) in
      match message with
      | PStr m => ([line; Yield (respond m)], None)
      | _ => ([line], Some AttributeError)
      end
  end.

(** The generator from a given [message_count] on: its events in order and
    the exception it ends with, if any. *)
Fixpoint chat_from (message_count : nat) (request_iterator : list RequestMessage)
  : list event * option pyerr :=
  match request_iterator with
  | [] =>
      ([Yield ("Chat session complete. Processed " +:+ pretty message_count
               +:+ " messages.")], None)
  | request :: rest =>
      match chat_step (S message_count) request with
      | (evs, Some e) => (evs, Some e)
      | (evs, None) =>
          let (evs', r) := chat_from (S message_count) rest in
          ((evs ++ evs')%list, r)
      end
  end.

(** [ChatServicer.chat] *)
Definition chat (request_iterator : list RequestMessage) : list event * option pyerr :=
  chat_from 0 request_iterator.

Section Orjson.
Variable orjson : TextCodec.

Definition request_deserializer (data : bytes) : result RequestMessage :=
  deserialize orjson data.

Definition response_serializer (res : string) : result bytes :=
  serialize_response orjson {| result_ := PStr res |}.

Definition request_serializer (name : string) : result bytes :=
  serialize orjson {| method := PStr "chat"; params := PDict [("message", PStr name)] |}.

Definition response_deserializer (data : bytes) : result pyval :=
  let! r := deserialize_response orjson data in
  Ok (result_ r).
End Orjson.

End Chat.

(** ** Dictionary keys

    A key of a Python dict must be hashable; [True] and [1] (and [False] and
    [0]) are the same key. *)

Inductive pykey : Type :=
| KNone
| KInt (z : Z)
| KStr (s : string).

#[global] Instance pykey_eq_dec : EqDecision pykey.
Proof. solve_decision. Defined.

#[global] Instance pykey_countable : Countable pykey.
Proof.
  refine (inj_countable'
            (fun k => match k with
                      | KNone => inl ()
                      | KInt z => inr (inl z)
                      | KStr s => inr (inr s)
                      end)
            (fun x => match x with
                      | inl _ => KNone
                      | inr (inl z) => KInt z
                      | inr (inr s) => KStr s
                      end) _).
  by intros [].
Defined.

(** [hash(v)] succeeds on None, booleans, integers and strings; lists and
    dicts are unhashable. *)
Definition key_of (v : pyval) : result pykey :=
  match v with
  | PNone => Ok KNone
  | PBool b => Ok (KInt (if b then 1 else 0))
  | PInt z => Ok (KInt z)
  | PStr s => Ok (KStr s)
  | PList _ | PDict _ => Raise TypeError
  end.

(** ** demo/current_approach: dataclasses and manual serializers *)

Module Current.

(** models.py: a dataclass does not check the annotated types, so a field
    holds whatever value it was given. *)
Record Address : Type := {
  street : pyval;
  city : pyval;
  country : pyval;
  postal_code : pyval
}.

Record User : Type := {
  id : pyval;
  name : pyval;
  email : pyval;
  active : pyval;
  roles : pyval;
  address : option Address;
  metadata : pyval
}.

Record CreateUserRequest : Type := { user : User }.

Record CreateUserResponse : Type := {
  created_user : User;
  status : pyval;
  created_at : pyval
}.

Record GetUserRequest : Type := { requested_id : pyval }.

Record GetUserResponse : Type := { found_user : option User }.

(** serializers.py *)

Definition serialize_address (address : option Address) : pyval :=
  match address with
  | None => PNone
  | Some a =>
      PDict [("street", street a); ("city", city a);
             ("country", country a); ("postal_code", postal_code a)]
  end.

Definition deserialize_address (data : pyval) : result (option Address) :=
  if negb (truthy data) then Ok None
  else
    let! s := get_default data "street" (PStr "") in
    let! c := get_default data "city" (PStr "") in
    let! n := get_default data "country" (PStr "") in
    let! p := get_default data "postal_code" (PStr "") in
    Ok (Some {| street := s; city := c; country := n; postal_code := p |}).

Definition serialize_user (u : User) : pyval :=
  PDict [("id", id u); ("name", name u); ("email", email u);
         ("active", active u); ("roles", roles u);
         ("address", serialize_address (address u));
         ("metadata", metadata u)].

Definition deserialize_user (data : pyval) : result User :=
  let! i := get_default data "id" (PInt 0) in
  let! n := get_default data "name" (PStr "") in
  let! e := get_default data "email" (PStr "") in
  let! a := get_default data "active" (PBool true) in
  let! r := get_default data "roles" (PList []) in
  let! ad := get_default data "address" PNone in
  let! ad' := deserialize_address ad in
  let! m := get_default data "metadata" (PDict []) in
  Ok {| id := i; name := n; email := e; active := a; roles := r;
        address := ad'; metadata := m |}.

Section Json.
(** [json.dumps(..).encode("utf-8")] and [json.loads(..decode("utf-8"))] *)
Variable json : TextCodec.

Definition serialize_create_user_request (request : CreateUserRequest) : result bytes :=
  dumps json (PDict [("user", serialize_user (user request))]).

Definition deserialize_create_user_request (data : bytes) : result CreateUserRequest :=
  let! parsed_data := loads json data in
  let! u := get_default parsed_data "user" (PDict []) in
  let! u' := deserialize_user u in
  Ok {| user := u' |}.

Definition serialize_create_user_response (response : CreateUserResponse) : result bytes :=
  dumps json (PDict [("user", serialize_user (created_user response));
                     ("status", status response);
                     ("created_at", created_at response)]).

Definition deserialize_create_user_response (data : bytes) : result CreateUserResponse :=
  let! parsed_data := loads json data in
  let! u := get_default parsed_data "user" (PDict []) in
  let! u' := deserialize_user u in
  let! s := get_default parsed_data "status" (PStr "") in
  let! c := get_default parsed_data "created_at" (PInt 0) in
  Ok {| created_user := u'; status := s; created_at := c |}.

Definition serialize_get_user_request (request : GetUserRequest) : result bytes :=
  dumps json (PDict [("id", requested_id request)]).

Definition deserialize_get_user_request (data : bytes) : result GetUserRequest :=
  let! parsed_data := loads json data in
  let! i := get_default parsed_data "id" (PInt 0) in
  Ok {| requested_id := i |}.

Definition serialize_get_user_response (response : GetUserResponse) : result bytes :=
  dumps json (PDict [("user", match found_user response with
                              | Some u => serialize_user u
                              | None => PNone
                              end)]).

Definition deserialize_get_user_response (data : bytes) : result GetUserResponse :=
  let! parsed_data := loads json data in
  let! user_data := get_default parsed_data "user" PNone in
  if truthy user_data
  then let! u := deserialize_user user_data in Ok {| found_user := Some u |}
  else Ok {| found_user := None |}.

(** service.py: [UserService], with [self.users] passed in and out.
    [now] is the value of [int(time.time())]. *)

Definition create_user (now : Z) (users : gmap pykey User) (request_bytes : bytes)
  : gmap pykey User * result bytes :=
  match deserialize_create_user_request request_bytes with
  | Raise e => (users, Raise e)
  | Ok request =>
      let u := user request in
      match key_of (id u) with
      | Raise e => (users, Raise e)
      | Ok k =>
          (<[k := u]> users,
           serialize_create_user_response
             {| created_user := u; status := PStr "created"; created_at := PInt now |})
      end
  end.

Definition get_user (users : gmap pykey User) (request_bytes : bytes)
  : gmap pykey User * result bytes :=
  match deserialize_get_user_request request_bytes with
  | Raise e => (users, Raise e)
  | Ok request =>
      match key_of (requested_id request) with
      | Raise e => (users, Raise e)
      | Ok k =>
          (users, serialize_get_user_response {| found_user := users !! k |})
      end
  end.
End Json.

End Current.

(** ** demo/improved_approach: Pydantic models and a format selector *)

(** The per-field validators of pydantic-core. Which inputs they coerce is
    the library's business; the models below only rely on what they do with
    a value that already has the field's type. *)
Record FieldValidators : Type := {
  validate_int : pyval -> result Z;
  validate_str : pyval -> result string;
  validate_bool : pyval -> result bool
}.

Definition validators_accept_typed (fv : FieldValidators) : Prop :=
  (forall z, validate_int fv (PInt z) = Ok z) /\
  (forall s, validate_str fv (PStr s) = Ok s) /\
  (forall b, validate_bool fv (PBool b) = Ok b).

(** Validators that accept exactly the values of the field's type. *)
Definition strict_validators : FieldValidators := {|
  validate_int := fun v => match v with PInt z => Ok z | _ => Raise ValidationError end;
  validate_str := fun v => match v with PStr s => Ok s | _ => Raise ValidationError end;
  validate_bool := fun v => match v with PBool b => Ok b | _ => Raise ValidationError end
|}.

Module Improved.

(** models.py: Pydantic checks the field types when a model is built. *)
Record Address : Type := {
  street : string;
  city : string;
  country : string;
  postal_code : string
}.

Record User : Type := {
  id : Z;
  name : string;
  email : string;
  active : bool;
  roles : list string;
  address : option Address;
  metadata : list (string * string)
}.

Record CreateUserRequest : Type := { user : User }.

Record CreateUserResponse : Type := {
  created_user : User;
  status : string;
  created_at : Z
}.

Record GetUserRequest : Type := { requested_id : Z }.

Record GetUserResponse : Type := { found_user : option User }.

Inductive model_class : Type :=
| ClsAddress
| ClsUser
| ClsCreateUserRequest
| ClsCreateUserResponse
| ClsGetUserRequest
| ClsGetUserResponse.

Definition model_type (c : model_class) : Type :=
  match c with
  | ClsAddress => Address
  | ClsUser => User
  | ClsCreateUserRequest => CreateUserRequest
  | ClsCreateUserResponse => CreateUserResponse
  | ClsGetUserRequest => GetUserRequest
  | ClsGetUserResponse => GetUserResponse
  end.

(** [model_class.__name__] *)
Definition class_name (c : model_class) : string :=
  match c with
  | ClsAddress => "Address"
  | ClsUser => "User"
  | ClsCreateUserRequest => "CreateUserRequest"
  | ClsCreateUserResponse => "CreateUserResponse"
  | ClsGetUserRequest => "GetUserRequest"
  | ClsGetUserResponse => "GetUserResponse"
  end.

(** *** [model_dump]: every field, in declaration order *)

Definition dump_address (a : Address) : pyval :=
  PDict [("street", PStr (street a)); ("city", PStr (city a));
         ("country", PStr (country a)); ("postal_code", PStr (postal_code a))].

Definition dump_optional {A : Type} (dump : A -> pyval) (o : option A) : pyval :=
  match o with
  | None => PNone
  | Some a => dump a
  end.

Definition dump_user (u : User) : pyval :=
  PDict [("id", PInt (id u)); ("name", PStr (name u)); ("email", PStr (email u));
         ("active", PBool (active u)); ("roles", PList (map PStr (roles u)));
         ("address", dump_optional dump_address (address u));
         ("metadata", PDict (map (fun kv => (fst kv, PStr (snd kv))) (metadata u)))].

Definition model_dump (c : model_class) : model_type c -> pyval :=
  match c with
  | ClsAddress => dump_address
  | ClsUser => dump_user
  | ClsCreateUserRequest => fun r => PDict [("user", dump_user (user r))]
  | ClsCreateUserResponse => fun r =>
      PDict [("user", dump_user (created_user r)); ("status", PStr (status r));
             ("created_at", PInt (created_at r))]
  | ClsGetUserRequest => fun r => PDict [("id", PInt (requested_id r))]
  | ClsGetUserResponse => fun r => PDict [("user", dump_optional dump_user (found_user r))]
  end.

(** *** [model_validate]: required fields, defaults, nested models *)

Section Validate.
Variable fv : FieldValidators.

Definition required {A : Type} (d : list (string * pyval)) (k : string)
    (validate : pyval -> result A) : result A :=
  match dict_get k d with
  | Some v => validate v
  | None => Raise ValidationError
  end.

Definition with_default {A : Type} (d : list (string * pyval)) (k : string)
    (default : A) (validate : pyval -> result A) : result A :=
  match dict_get k d with
  | Some v => validate v
  | None => Ok default
  end.

Definition validate_optional {A : Type} (validate : pyval -> result A) (v : pyval)
  : result (option A) :=
  match v with
  | PNone => Ok None
  | _ => let! a := validate v in Ok (Some a)
  end.

Definition validate_list_str (v : pyval) : result (list string) :=
  match v with
  | PList l => traverse (validate_str fv) l
  | _ => Raise ValidationError
  end.

Definition validate_dict_str (v : pyval) : result (list (string * string)) :=
  match v with
  | PDict d => traverse (fun kv => let! x := validate_str fv (snd kv) in Ok (fst kv, x)) d
  | _ => Raise ValidationError
  end.

Definition validate_address (v : pyval) : result Address :=
  match v with
  | PDict d =>
      let! s := required d "street" (validate_str fv) in
      let! c := required d "city" (validate_str fv) in
      let! n := required d "country" (validate_str fv) in
      let! p := required d "postal_code" (validate_str fv) in
      Ok {| street := s; city := c; country := n; postal_code := p |}
  | _ => Raise ValidationError
  end.

Definition validate_user (v : pyval) : result User :=
  match v with
  | PDict d =>
      let! i := required d "id" (validate_int fv) in
      let! n := required d "name" (validate_str fv) in
      let! e := required d "email" (validate_str fv) in
      let! a := with_default d "active" true (validate_bool fv) in
      let! r := with_default d "roles" [] validate_list_str in
      let! ad := with_default d "address" None (validate_optional validate_address) in
      let! m := with_default d "metadata" [] validate_dict_str in
      Ok {| id := i; name := n; email := e; active := a; roles := r;
            address := ad; metadata := m |}
  | _ => Raise ValidationError
  end.

Definition model_validate (c : model_class) : pyval -> result (model_type c) :=
  match c with
  | ClsAddress => validate_address
  | ClsUser => validate_user
  | ClsCreateUserRequest => fun v =>
      match v with
      | PDict d =>
          let! u := required d "user" validate_user in
          Ok {| user := u |}
      | _ => Raise ValidationError
      end
  | ClsCreateUserResponse => fun v =>
      match v with
      | PDict d =>
          let! u := required d "user" validate_user in
          let! s := required d "status" (validate_str fv) in
          let! t := required d "created_at" (validate_int fv) in
          Ok {| created_user := u; status := s; created_at := t |}
      | _ => Raise ValidationError
      end
  | ClsGetUserRequest => fun v =>
      match v with
      | PDict d =>
          let! i := required d "id" (validate_int fv) in
          Ok {| requested_id := i |}
      | _ => Raise ValidationError
      end
  | ClsGetUserResponse => fun v =>
      match v with
      | PDict d =>
          let! u := with_default d "user" None (validate_optional validate_user) in
          Ok {| found_user := u |}
      | _ => Raise ValidationError
      end
  end.
End Validate.

(** *** serializers.py *)

(** [SerializationFormat] *)
Inductive SerializationFormat : Type :=
| JSON
| PROTOBUF.

(** The generated module [proto.user_pb2] is not part of the repository, so
    the import fails and [pb] is the fallback module: each class is a
    [MockProto] without state. *)
Inductive pb : Type :=
| pb_Address
| pb_User
| pb_CreateUserRequest
| pb_CreateUserResponse
| pb_GetUserRequest
| pb_GetUserResponse.

(** An instance of a class of [pb]. *)
Inductive MockProto : Type :=
| mock_instance (cls : pb).

(** [MockProto.SerializeToString] *)
Definition SerializeToString (msg : MockProto) : bytes := "mock_serialized_protobuf".

(** [MockProto.FromString] *)
Definition FromString (cls : pb) (data : bytes) : MockProto := mock_instance cls.

Definition PROTOBUF_MAPPING : list (string * pb) :=
  [("Address", pb_Address); ("User", pb_User);
   ("CreateUserRequest", pb_CreateUserRequest);
   ("CreateUserResponse", pb_CreateUserResponse);
   ("GetUserRequest", pb_GetUserRequest);
   ("GetUserResponse", pb_GetUserResponse)].

Fixpoint mapping_get (k : string) (m : list (string * pb)) : option pb :=
  match m with
  | [] => None
  | (k', c) :: m' => if String.eqb k k' then Some c else mapping_get k m'
  end.

(** [ProtobufSerializer.get_protobuf_class] *)
Definition get_protobuf_class (c : model_class) : result pb :=
  match mapping_get (class_name c) PROTOBUF_MAPPING with
  | Some cls => Ok cls
  | None => Raise ValueError
  end.

(** [ProtobufSerializer.model_to_protobuf]: the dict built by [model_dump]
    and its loop over nested models is only passed to
    [json_format.ParseDict], which cannot fill a [MockProto]; whether it
    raises or not, the value returned is a fresh instance of the mapped
    class. *)
Definition model_to_protobuf (c : model_class) (m : model_type c) : result MockProto :=
  let! proto_class := get_protobuf_class c in
  Ok (mock_instance proto_class).

Section Pydantic.
(** pydantic-core's JSON writer and reader, with the UTF-8 step. *)
Variable pyd : TextCodec.
Variable fv : FieldValidators.

(** [model.model_dump_json().encode("utf-8")] *)
Definition model_dump_json (c : model_class) (m : model_type c) : result bytes :=
  dumps pyd (model_dump c m).

(** [model_class.model_validate_json(data.decode("utf-8"))] *)
Definition model_validate_json (c : model_class) (data : bytes) : result (model_type c) :=
  let! v := loads pyd data in
  model_validate fv c v.

(** [ProtobufSerializer.protobuf_to_model]: [json_format.MessageToDict]
    raises on a [MockProto], so [msg_dict] is the empty dict. *)
Definition protobuf_to_model (proto_msg : MockProto) (c : model_class)
  : result (model_type c) :=
  model_validate fv c (PDict []).

(** [ProtobufSerializer.serialize] *)
Definition serialize (c : model_class) (m : model_type c) (format : SerializationFormat)
  : result bytes :=
  match format with
  | JSON => model_dump_json c m
  | PROTOBUF =>
      let! proto_msg := model_to_protobuf c m in
      Ok (SerializeToString proto_msg)
  end.

(** [ProtobufSerializer.deserialize] *)
Definition deserialize (data : bytes) (c : model_class) (format : SerializationFormat)
  : result (model_type c) :=
  match format with
  | JSON => model_validate_json c data
  | PROTOBUF =>
      let! proto_class := get_protobuf_class c in
      let proto_msg := FromString proto_class data in
      protobuf_to_model proto_msg c
  end.

Definition serialize_model (c : model_class) (m : model_type c)
    (format : SerializationFormat) : result bytes :=
  serialize c m format.

Definition deserialize_model (data : bytes) (c : model_class)
    (format : SerializationFormat) : result (model_type c) :=
  deserialize data c format.

(** service.py: [UserService] with [self.users] passed in and out;
    [serialization_format] is fixed when the service is built. *)

Definition create_user (serialization_format : SerializationFormat) (now : Z)
    (users : gmap Z User) (request_bytes : bytes) : gmap Z User * result bytes :=
  match deserialize_model request_bytes ClsCreateUserRequest serialization_format with
  | Raise e => (users, Raise e)
  | Ok request =>
      let u := user request in
      (<[id u := u]> users,
       serialize_model ClsCreateUserResponse
         {| created_user := u; status := "created"; created_at := now |}
         serialization_format)
  end.

Definition get_user (serialization_format : SerializationFormat)
    (users : gmap Z User) (request_bytes : bytes) : gmap Z User * result bytes :=
  match deserialize_model request_bytes ClsGetUserRequest serialization_format with
  | Raise e => (users, Raise e)
  | Ok request =>
      (users,
       serialize_model ClsGetUserResponse
         {| found_user := users !! requested_id request |}
         serialization_format)
  end.
End Pydantic.

End Improved.

(** ** server/client.py: the reader of the chat responses *)

Module ChatClient.

(** What [stream.read(timeout=1.0)] gives the reader: the [EOF] marker, or
    a value, which is [None] when the timeout passed without a response. *)
Inductive read_value : Type :=
| EOF
| Value (v : pyval).

(** How far the loop of [read_responses] got on the values read so far:
    it left the loop, or it is at the next [read]. *)
Inductive reader_status : Type :=
| Ended
| Reading.

(** [read_responses] in [ChatServiceStub.start_chat], on the successive
    results of [stream.read]: the lines it prints and where it stands. *)
Fixpoint read_responses (reads : list read_value) : list string * reader_status :=
  match reads with
  | [] => ([], Reading)
  | EOF :: _ => (["Server ended the conversation"], Ended)
  | Value PNone :: rest => read_responses rest
  | Value response :: rest =>
      let (out, st) := read_responses rest in
      (("Server: " +:+ py_format response) :: out, st)
  end.

End ChatClient.

(** * Vocabulary of the statements *)

(** ** Values used as examples *)

Definition sample_request : Common.RequestMessage :=
  {| Common.method := PStr "chat";
     Common.params := PDict [("message", PStr "Hello, I'm the client!");
                             ("tags", PList [PInt (-3); PBool true; PNone])] |}.

Definition sample_response : Common.ResponseMessage :=
  {| Common.result_ := PStr "Hello! Welcome to our service!" |}.

(** What [request_serializer] of server/client.py wraps around a message. *)
Definition chat_request (m : string) : Common.RequestMessage :=
  {| Common.method := PStr "chat"; Common.params := PDict [("message", PStr m)] |}.

(** What [request_serializer] of client.py wraps around a name, and the
    response the greeter gives for it. *)
Definition hello_request (name : string) : Common.RequestMessage :=
  {| Common.method := PStr "sayHello"; Common.params := PDict [("name", PStr name)] |}.

Definition hello_response (name : string) : Common.ResponseMessage :=
  {| Common.result_ := PStr ("Hello, " +:+ name +:+ "!") |}.

(** What [request_serializer] of stream/client.py wraps around a name. *)
Definition name_request (name : string) : Common.RequestMessage :=
  {| Common.method := PStr "processNames"; Common.params := PDict [("name", PStr name)] |}.

(** The names that stream/client.py sends, and the reply to them. *)
Definition four_names : list string := ["Alice"; "Bob"; "Charlie"; "David"].

Definition four_names_reply : string := "Processed 4 names: Alice, Bob, Charlie, David".

(** The user of the example in demo/improved_approach/service.py. *)
Definition john : Improved.User :=
  {| Improved.id := 1; Improved.name := "John Doe"; Improved.email := "john@example.com";
     Improved.active := true; Improved.roles := ["admin"; "user"];
     Improved.address := Some {| Improved.street := "123 Main St";
                                 Improved.city := "San Francisco";
                                 Improved.country := "USA";
                                 Improved.postal_code := "94105" |};
     Improved.metadata := [("department", "Engineering"); ("title", "Developer")] |}.

Definition create_john : Improved.CreateUserRequest := {| Improved.user := john |}.

Definition request_one : Improved.GetUserRequest := {| Improved.requested_id := 1 |}.

(** A user object cut short after its second field. *)
Definition truncated_user : list (string * pyval) :=
  [("id", PInt 7); ("name", PStr "John Doe")].

(** ** The chat *)

(** The request carries the string [m] under "message" (or has no such
    key and [m] is empty). *)
Definition carries (request : Common.RequestMessage) (m : string) : Prop :=
  get_default (Common.params request) "message" (PStr "") = Ok (PStr m).

Definition keywords : list string :=
  ["hello"; "how are you"; "services"; "thank you"; "goodbye"].

Definition closing_line (n : nat) : string :=
  "Chat session complete. Processed " +:+ pretty n +:+ " messages.".

(** ** States of a call *)

(** Open, with [q] queued for the callback and nothing written. *)
Definition open_with (q : list Common.RequestMessage) : Runtime.ServerStream :=
  {| Runtime.inbound := q; Runtime.inbound_closed := false;
     Runtime.outbound := []; Runtime.outbound_closed := false;
     Runtime.terminal_error := None |}.

(** Finished, with the one response [out] written and both directions closed. *)
Definition answered (out : bytes) : Runtime.ServerStream :=
  {| Runtime.inbound := []; Runtime.inbound_closed := true;
     Runtime.outbound := [out]; Runtime.outbound_closed := true;
     Runtime.terminal_error := None |}.

(** Aborted for a protocol violation, nothing written. *)
Definition violated (q : list Common.RequestMessage) : Runtime.ServerStream :=
  {| Runtime.inbound := q; Runtime.inbound_closed := true;
     Runtime.outbound := []; Runtime.outbound_closed := true;
     Runtime.terminal_error := Some Runtime.ProtocolViolation |}.

(** The method handlers that the two [build_service_handler] register. *)
Definition say_hello_handler (orjson : TextCodec) : Runtime.MethodHandler :=
  {| Runtime.method_name := "sayHello";
     Runtime.callback := Runtime.UnaryCallback Greeter.say_hello;
     Runtime.request_decode := Greeter.request_deserializer orjson;
     Runtime.response_encode := Greeter.response_serializer orjson |}.

Definition process_names_handler (orjson : TextCodec) : Runtime.MethodHandler :=
  {| Runtime.method_name := "processNames";
     Runtime.callback :=
       Runtime.ClientStreamCallback (fun it => snd (Streaming.process_names it));
     Runtime.request_decode := Streaming.request_deserializer orjson;
     Runtime.response_encode := Streaming.response_serializer orjson |}.

(** ** Decoding *)

(** A decoder rejects malformed input when every byte string that is not the
    encoding of some value makes it raise. *)
Definition rejects_malformed {A : Type}
    (encode : A -> result bytes) (decode : bytes -> result A) : Prop :=
  forall data : bytes, (forall x, encode x <> Ok data) -> exists e, decode data = Raise e.

(** The user that [deserialize_user] builds from an empty object. *)
Definition default_user : Current.User :=
  {| Current.id := PInt 0; Current.name := PStr ""; Current.email := PStr "";
     Current.active := PBool true; Current.roles := PList [];
     Current.address := None; Current.metadata := PDict [] |}.

Definition is_dict (v : pyval) : bool :=
  match v with PDict _ => true | _ => false end.

(** ** The format selector *)

(** The round-trip law over both formats and every model class. *)
Definition format_round_trip (pyd : TextCodec) (fv : FieldValidators) : Prop :=
  forall (f : Improved.SerializationFormat) (c : Improved.model_class)
         (m : Improved.model_type c),
  exists b, Improved.serialize_model pyd c m f = Ok b /\
            Improved.deserialize_model pyd fv b c f = Ok m.

(** ** Corresponding values of the two approaches *)

(** The dataclass value that corresponds to a Pydantic value: the same
    fields with the same contents. *)
Definition to_current_address (a : Improved.Address) : Current.Address :=
  {| Current.street := PStr (Improved.street a);
     Current.city := PStr (Improved.city a);
     Current.country := PStr (Improved.country a);
     Current.postal_code := PStr (Improved.postal_code a) |}.

Definition to_current_user (u : Improved.User) : Current.User :=
  {| Current.id := PInt (Improved.id u);
     Current.name := PStr (Improved.name u);
     Current.email := PStr (Improved.email u);
     Current.active := PBool (Improved.active u);
     Current.roles := PList (map PStr (Improved.roles u));
     Current.address := option_map to_current_address (Improved.address u);
     Current.metadata :=
       PDict (map (fun kv => (fst kv, PStr (snd kv))) (Improved.metadata u)) |}.

Definition to_current_request (r : Improved.CreateUserRequest) : Current.CreateUserRequest :=
  {| Current.user := to_current_user (Improved.user r) |}.

(** The bytes of the request that creates [john], in the JSON format. *)
Definition create_john_bytes : bytes :=
  Eval vm_compute in
    match Improved.serialize_model RefJson.compact Improved.ClsCreateUserRequest
            create_john Improved.JSON with
    | Ok b => b
    | Raise _ => ""
    end.

(** The store of the example: users 1 and 2. *)
Definition two_users : gmap Z Improved.User :=
  <[2 := {| Improved.id := 2; Improved.name := "Jane"; Improved.email := "jane@example.com";
            Improved.active := true; Improved.roles := []; Improved.address := None;
            Improved.metadata := [] |}]> (<[1 := john]> ∅).

(** ** Vocabulary of the further properties *)

(** The request carries the string [n] under "name" (or has no such key and
    [n] is empty). *)
Definition carries_name (request : Common.RequestMessage) (n : string) : Prop :=
  get_default (Common.params request) "name" (PStr "") = Ok (PStr n).

(** A name that is not empty and does not contain the separator. *)
Definition plain_name (n : string) : bool :=
  negb (String.eqb n "") && negb (contains ", " n).

(** The line that [process_names] prints for a name. *)
Definition received_line (n : string) : event := Print ("Received name: " +:+ n).

(** One pass of the loop body of [process_names] over the accumulator. *)
Definition add_name (combined_names n : string) : string :=
  (if negb (String.eqb combined_names "") then combined_names +:+ ", "
   else combined_names) +:+ n.

(** The names after the first, each behind a separator. *)
Fixpoint tail_join (names : list string) : string :=
  match names with
  | [] => ""
  | n :: names' => ", " +:+ n +:+ tail_join names'
  end.

Definition is_str (v : pyval) : bool :=
  match v with PStr _ => true | _ => false end.

(** The JSON objects that the current_approach serializers hand to
    [json.dumps]. *)
Definition create_user_request_obj (r : Current.CreateUserRequest) : pyval :=
  PDict [("user", Current.serialize_user (Current.user r))].

Definition create_user_response_obj (r : Current.CreateUserResponse) : pyval :=
  PDict [("user", Current.serialize_user (Current.created_user r));
         ("status", Current.status r); ("created_at", Current.created_at r)].

Definition get_user_request_obj (r : Current.GetUserRequest) : pyval :=
  PDict [("id", Current.requested_id r)].

Definition get_user_response_obj (r : Current.GetUserResponse) : pyval :=
  PDict [("user", match Current.found_user r with
                  | Some u => Current.serialize_user u
                  | None => PNone
                  end)].

(** A value that cannot be a dict key. *)
Definition unhashable (v : pyval) : bool :=
  match v with PList _ | PDict _ => true | _ => false end.

(** Requests of the examples, as JSON text of the reference writer. *)
Definition get_true_bytes : bytes :=
  Eval vm_compute in
    match dumps RefJson.json (PDict [("id", PBool true)]) with
    | Ok b => b
    | Raise _ => ""
    end.

Definition create_john_manual_bytes : bytes :=
  Eval vm_compute in
    match dumps RefJson.json
            (PDict [("user", PDict [("id", PInt 1); ("name", PStr "John Doe");
                                    ("email", PStr "john@example.com")])]) with
    | Ok b => b
    | Raise _ => ""
    end.

Definition create_listed_id_bytes : bytes :=
  Eval vm_compute in
    match dumps RefJson.json
            (PDict [("user", PDict [("id", PList [PInt 1]); ("name", PStr "x")])]) with
    | Ok b => b
    | Raise _ => ""
    end.

(** The dataclass user behind [create_john_manual_bytes]. *)
Definition john_manual : Current.User :=
  {| Current.id := PInt 1; Current.name := PStr "John Doe";
     Current.email := PStr "john@example.com"; Current.active := PBool true;
     Current.roles := PList []; Current.address := None;
     Current.metadata := PDict [] |}.

(** The fields that the model declarations of improved_approach/models.py
    give no default: Pydantic requires them. *)
Definition required_fields (c : Improved.model_class) : list string :=
  match c with
  | Improved.ClsAddress => ["street"; "city"; "country"; "postal_code"]
  | Improved.ClsUser => ["id"; "name"; "email"]
  | Improved.ClsCreateUserRequest => ["user"]
  | Improved.ClsCreateUserResponse => ["user"; "status"; "created_at"]
  | Improved.ClsGetUserRequest => ["id"]
  | Improved.ClsGetUserResponse => []
  end.

(** The Pydantic user with the given required fields and every other field
    at its declared default. *)
Definition user_with_defaults (i : Z) (n e : string) : Improved.User :=
  {| Improved.id := i; Improved.name := n; Improved.email := e;
     Improved.active := true; Improved.roles := []; Improved.address := None;
     Improved.metadata := [] |}.

(** The store of the manual service holds, under the integer keys, the
    dataclass values of the users of the Pydantic service, and nothing
    else. *)
Definition stores_correspond (manual : gmap pykey Current.User)
    (pydantic : gmap Z Improved.User) : Prop :=
  forall k : pykey,
    manual !! k = match k with
                  | KInt z => to_current_user <$> (pydantic !! z)
                  | _ => None
                  end.

(** The bytes of the request for user 1, in the JSON format. *)
Definition get_one_bytes : bytes :=
  Eval vm_compute in
    match Improved.serialize_model RefJson.compact Improved.ClsGetUserRequest
            request_one Improved.JSON with
    | Ok b => b
    | Raise _ => ""
    end.

(** The lines that the chat reader prints for the values read before the
    end marker. *)
Fixpoint server_lines (reads : list ChatClient.read_value) : list string :=
  match reads with
  | [] => []
  | ChatClient.EOF :: rest => server_lines rest
  | ChatClient.Value PNone :: rest => server_lines rest
  | ChatClient.Value v :: rest => ("Server: " +:+ py_format v) :: server_lines rest
  end.

Definition is_eof (r : ChatClient.read_value) : bool :=
  match r with ChatClient.EOF => true | _ => false end.

(** The dataclass values that the manual deserializers build from an
    object: each field is the value under its key, or the default of the
    field when the key is absent. *)
Definition address_fields (d : list (string * pyval)) : Current.Address :=
  {| Current.street := default (PStr "") (dict_get "street" d);
     Current.city := default (PStr "") (dict_get "city" d);
     Current.country := default (PStr "") (dict_get "country" d);
     Current.postal_code := default (PStr "") (dict_get "postal_code" d) |}.

Definition user_fields (d : list (string * pyval)) (a : option Current.Address)
  : Current.User :=
  {| Current.id := default (PInt 0) (dict_get "id" d);
     Current.name := default (PStr "") (dict_get "name" d);
     Current.email := default (PStr "") (dict_get "email" d);
     Current.active := default (PBool true) (dict_get "active" d);
     Current.roles := default (PList []) (dict_get "roles" d);
     Current.address := a;
     Current.metadata := default (PDict []) (dict_get "metadata" d) |}.

(** Request texts whose "user" is not an object, or whose address is a
    number, written by the reference writer. *)
Definition user_five_bytes : bytes :=
  Eval vm_compute in
    match dumps RefJson.json (PDict [("user", PInt 5)]) with
    | Ok b => b
    | Raise _ => ""
    end.

Definition address_seven_bytes : bytes :=
  Eval vm_compute in
    match dumps RefJson.json
            (PDict [("user", PDict [("id", PInt 1); ("address", PInt 7)])]) with
    | Ok b => b
    | Raise _ => ""
    end.

Definition partial_address_bytes : bytes :=
  Eval vm_compute in
    match dumps RefJson.json
            (PDict [("user", PDict [("id", PInt 1);
                                    ("address", PDict [("city", PStr "Oslo")])])]) with
    | Ok b => b
    | Raise _ => ""
    end.

(** A second create request for the id of [john_manual], with another
    user. *)
Definition jane_manual : Current.User :=
  {| Current.id := PInt 1; Current.name := PStr "Jane Roe";
     Current.email := PStr "jane@example.com"; Current.active := PBool false;
     Current.roles := PList []; Current.address := None;
     Current.metadata := PDict [] |}.

Definition create_jane_manual_bytes : bytes :=
  Eval vm_compute in
    match dumps RefJson.json
            (PDict [("user", PDict [("id", PInt 1); ("name", PStr "Jane Roe");
                                    ("email", PStr "jane@example.com");
                                    ("active", PBool false)])]) with
    | Ok b => b
    | Raise _ => ""
    end.

(** * Theorems *)

(** ** Helper lemmas *)

Lemma yields_app (t1 t2 : list event) : yields (t1 ++ t2) = (yields t1 ++ yields t2)%list.
Proof.
  induction t1 as [|[l|v] t1 IH]; simpl; [reflexivity | exact IH | now rewrite IH].
Qed.

(** ** server/common.py: the orjson envelopes *)

Section CommonRoundTrip.
Import Common.
Variable orjson : TextCodec.

Lemma deserialize_of_loads (data : bytes) (m : RequestMessage) :
  loads orjson data = Ok (request_obj m) -> deserialize orjson data = Ok m.
Proof.
  intros H. unfold deserialize. rewrite H. destruct m as [meth par]. reflexivity.
Qed.

Lemma deserialize_response_of_loads (data : bytes) (r : ResponseMessage) :
  loads orjson data = Ok (response_obj r) -> deserialize_response orjson data = Ok r.
Proof.
  intros H. unfold deserialize_response. rewrite H. destruct r as [res]. reflexivity.
Qed.

Lemma request_round_trip (m : RequestMessage) :
  roundtrips orjson (request_obj m) ->
  exists b, serialize orjson m = Ok b /\ deserialize orjson b = Ok m.
Proof.
  intros (b & Hd & Hl). exists b. split; [exact Hd | now apply deserialize_of_loads].
Qed.

Lemma response_round_trip (r : ResponseMessage) :
  roundtrips orjson (response_obj r) ->
  exists b, serialize_response orjson r = Ok b /\ deserialize_response orjson b = Ok r.
Proof.
  intros (b & Hd & Hl). exists b. split; [exact Hd | now apply deserialize_response_of_loads].
Qed.
End CommonRoundTrip.

(** C1. For every RequestMessage [m] and ResponseMessage [r] whose JSON
    objects the orjson codec carries (its writer accepts them and its reader
    gives them back), serialization succeeds and deserializing the bytes
    returns a message equal to the original. *)
Theorem common_codecs_round_trip (orjson : TextCodec)
    (m : Common.RequestMessage) (r : Common.ResponseMessage) :
  roundtrips orjson (Common.request_obj m) ->
  roundtrips orjson (Common.response_obj r) ->
  (exists b, Common.serialize orjson m = Ok b /\ Common.deserialize orjson b = Ok m) /\
  (exists b, Common.serialize_response orjson r = Ok b /\
             Common.deserialize_response orjson b = Ok r).
Proof.
  intros Hm Hr. split.
  - now apply request_round_trip.
  - now apply response_round_trip.
Qed.

Lemma common_codecs_round_trip_witness :
  (exists b, Common.serialize RefJson.compact sample_request = Ok b /\
             Common.deserialize RefJson.compact b = Ok sample_request) /\
  (exists b, Common.serialize_response RefJson.compact sample_response = Ok b /\
             Common.deserialize_response RefJson.compact b = Ok sample_response).
Proof.
  apply (common_codecs_round_trip RefJson.compact sample_request sample_response).
  - eexists. split; vm_compute; reflexivity.
  - eexists. split; vm_compute; reflexivity.
Defined.

(** ** server.py: the greeter *)

(** C8. When the params dict of a unary request has no key "name",
    [say_hello] returns "Hello, Guest!"; when it maps "name" to a string
    [n] it returns "Hello, n!" (and for any value [v] the text that an
    f-string puts for [v]). *)
Theorem say_hello_greets (request : Common.RequestMessage) (d : list (string * pyval)) :
  Common.params request = PDict d ->
  (dict_get "name" d = None -> Greeter.say_hello request = Ok "Hello, Guest!") /\
  (forall n, dict_get "name" d = Some (PStr n) ->
             Greeter.say_hello request = Ok ("Hello, " +:+ n +:+ "!")) /\
  (forall v, dict_get "name" d = Some v ->
             Greeter.say_hello request = Ok ("Hello, " +:+ py_format v +:+ "!")).
Proof.
  intros Hp. unfold Greeter.say_hello. rewrite Hp. simpl.
  repeat split.
  - intros ->. reflexivity.
  - intros n ->. reflexivity.
  - intros v ->. reflexivity.
Qed.

Lemma say_hello_greets_witness :
  Greeter.say_hello {| Common.method := PStr "sayHello"; Common.params := PDict [] |}
  = Ok "Hello, Guest!" /\
  Greeter.say_hello {| Common.method := PStr "sayHello";
                       Common.params := PDict [("name", PStr "PythonUser")] |}
  = Ok "Hello, PythonUser!".
Proof.
  split.
  - exact (proj1 (say_hello_greets
                    {| Common.method := PStr "sayHello"; Common.params := PDict [] |}
                    [] eq_refl) eq_refl).
  - exact (proj1 (proj2 (say_hello_greets
                    {| Common.method := PStr "sayHello";
                       Common.params := PDict [("name", PStr "PythonUser")] |}
                    [("name", PStr "PythonUser")] eq_refl)) "PythonUser" eq_refl).
Defined.

(** ** server/server.py: the chat generator *)

Section ChatOrder.
Import Common.

Lemma chat_step_carries (n : nat) (request : RequestMessage) (m : string) :
  carries request m ->
  exists line, Chat.chat_step n request = ([Print line; Yield (Chat.respond m)], None).
Proof.
  unfold carries, Chat.chat_step. intros ->. eexists. reflexivity.
Qed.

Lemma chat_from_yields (reqs : list RequestMessage) (msgs : list string) :
  Forall2 carries reqs msgs ->
  forall n,
    snd (Chat.chat_from n reqs) = None /\
    yields (fst (Chat.chat_from n reqs))
    = (map Chat.respond msgs ++ [closing_line (n + length msgs)])%list.
Proof.
  induction 1 as [|request m reqs msgs Hc _ IH]; intros n.
  - simpl. rewrite Nat.add_0_r. split; reflexivity.
  - destruct (chat_step_carries (S n) request m Hc) as [line Hs].
    simpl. rewrite Hs.
    destruct (IH (S n)) as [Hnone Hy].
    destruct (Chat.chat_from (S n) reqs) as [evs r]. simpl in *.
    split; [exact Hnone|].
    rewrite Hy. replace (n + S (length msgs))%nat with (S n + length msgs)%nat by lia.
    reflexivity.
Qed.

Lemma respond_unmatched (m : string) :
  forallb (fun k => negb (contains k (lower m))) keywords = true ->
  Chat.respond m = "I received your message: '" +:+ m +:+ "'".
Proof.
  unfold keywords. simpl. rewrite !andb_true_iff, !negb_true_iff.
  intros (H1 & H2 & H3 & H4 & H5 & _).
  unfold Chat.respond. rewrite H1, H2, H3, H4, H5. reflexivity.
Qed.
End ChatOrder.

(** C5. For every sequence of incoming requests that carry string messages,
    [ChatServicer.chat] ends without an exception and yields, in position
    [i], the response mapped to the [i]-th message, followed by the closing
    line; a message containing "hello" (case-insensitively) is answered
    "Hello! Welcome to our service!", and a message that contains none of
    the five keywords is answered "I received your message: '<msg>'". *)
Theorem chat_responses_in_write_order
    (reqs : list Common.RequestMessage) (msgs : list string) :
  Forall2 carries reqs msgs ->
  snd (Chat.chat reqs) = None /\
  yields (fst (Chat.chat reqs))
  = (map Chat.respond msgs ++ [closing_line (length msgs)])%list /\
  (forall (i : nat) (m : string),
      msgs !! i = Some m -> yields (fst (Chat.chat reqs)) !! i = Some (Chat.respond m)) /\
  (forall m, contains "hello" (lower m) = true ->
             Chat.respond m = "Hello! Welcome to our service!") /\
  (forall m, forallb (fun k => negb (contains k (lower m))) keywords = true ->
             Chat.respond m = "I received your message: '" +:+ m +:+ "'").
Proof.
  intros H. destruct (chat_from_yields reqs msgs H 0%nat) as [Hnone Hy].
  unfold Chat.chat. simpl in Hy.
  repeat split.
  - exact Hnone.
  - exact Hy.
  - intros i m Hi. rewrite Hy.
    rewrite lookup_app_l.
    + rewrite list_lookup_fmap, Hi. reflexivity.
    + rewrite length_map. eapply lookup_lt_Some; eauto.
  - intros m Hm. unfold Chat.respond. rewrite Hm. reflexivity.
  - apply respond_unmatched.
Qed.

Lemma chat_responses_in_write_order_witness :
  yields (fst (Chat.chat (map chat_request ["hello"; "what is this"; "goodbye"])))
  = ["Hello! Welcome to our service!";
     "I received your message: 'what is this'";
     "Goodbye! Have a great day!";
     "Chat session complete. Processed 3 messages."].
Proof.
  refine (proj1 (proj2 (chat_responses_in_write_order
                   (map chat_request ["hello"; "what is this"; "goodbye"])
                   ["hello"; "what is this"; "goodbye"] _))).
  repeat constructor.
Defined.

(** ** Invariants of the Stream *)

Section StreamInvariants.
Import Runtime.
Context {In Out : Type}.
Implicit Type s : Stream In Out.

(** Once a close flag is set, writing in that direction fails. *)
Lemma write_after_close (msg : Out) s :
  outbound_closed s = true -> exists e, write msg s = inl e.
Proof.
  intros Hc. unfold write. destruct (terminal_error s); [eauto|]. rewrite Hc. eauto.
Qed.

(** The terminal-error slot, once set, is never overwritten. *)
Lemma abort_keeps_first_error (e e' : StreamError) s :
  terminal_error s = Some e -> terminal_error (abort e' s) = Some e.
Proof. intros H. simpl. now rewrite H. Qed.

(** After [abort], reads and writes fail with [StreamAborted]. *)
Lemma aborted_fails (e : StreamError) (msg : Out) s :
  read (abort e s) = inl StreamAborted /\ write msg (abort e s) = inl StreamAborted.
Proof. unfold read, write. simpl. destruct (terminal_error s); split; reflexivity. Qed.

Lemma close_write_idempotent s : close_write (close_write s) = close_write s.
Proof. reflexivity. Qed.

(** Messages are read in the order they were delivered. *)
Lemma read_first_delivered (m : In) (q : list In) (o : list Out) (c oc : bool) :
  exists s',
    read {| inbound := m :: q; inbound_closed := c; outbound := o;
            outbound_closed := oc; terminal_error := None |}
    = inr (Message m, s') /\ inbound s' = q.
Proof. eexists. split; reflexivity. Qed.
End StreamInvariants.

(** ** The call shapes of the runtime *)

Section Dispatcher.
Import Common Runtime.
Variable h : MethodHandler.

(** An aborted call takes no further frame. *)
Lemma on_frame_aborted (s : ServerStream) (fr : frame) (e : StreamError) :
  terminal_error s = Some e -> on_frame h s fr = s.
Proof. intros H. unfold on_frame. now rewrite H. Qed.

Lemma serve_aborted (frames : list frame) (s : ServerStream) (e : StreamError) :
  terminal_error s = Some e -> fold_left (on_frame h) frames s = s.
Proof.
  induction frames as [|fr frames IH]; intros H; simpl; [reflexivity|].
  rewrite (on_frame_aborted s fr e H). now apply IH.
Qed.

(** A finished call takes no further frame either. *)
Lemma serve_closed (frames : list frame) (s : ServerStream) :
  terminal_error s = None -> inbound_closed s = true ->
  fold_left (on_frame h) frames s = s.
Proof.
  intros He Hc. induction frames as [|fr frames IH]; simpl; [reflexivity|].
  unfold on_frame at 2. now rewrite He, Hc.
Qed.

Lemma unary_one_request f (b out : bytes) (request : RequestMessage) (resp : string) :
  callback h = UnaryCallback f ->
  request_decode h b = Ok request ->
  f request = Ok resp ->
  response_encode h resp = Ok out ->
  serve h [Frame b; EndFrame] = answered out.
Proof.
  intros Hcb Hd Hf He. unfold serve. simpl.
  unfold on_frame at 2. simpl. rewrite Hd, Hcb. simpl.
  unfold on_frame. simpl. rewrite Hcb. simpl.
  unfold finish. rewrite Hf, He. reflexivity.
Qed.

Lemma unary_second_request f (b1 b2 : bytes) (r1 r2 : RequestMessage) (rest : list frame) :
  callback h = UnaryCallback f ->
  request_decode h b1 = Ok r1 ->
  request_decode h b2 = Ok r2 ->
  serve h (Frame b1 :: Frame b2 :: rest) = violated [r1; r2].
Proof.
  intros Hcb H1 H2. unfold serve. simpl.
  unfold on_frame at 3. simpl. rewrite H1, Hcb. simpl.
  unfold on_frame at 2. simpl. rewrite H2, Hcb. simpl.
  now apply (serve_aborted rest _ ProtocolViolation).
Qed.

Lemma unary_no_request f (rest : list frame) :
  callback h = UnaryCallback f ->
  serve h (EndFrame :: rest) = violated [].
Proof.
  intros Hcb. unfold serve. simpl.
  unfold on_frame at 2. simpl. rewrite Hcb. simpl.
  now apply (serve_aborted rest _ ProtocolViolation).
Qed.

(** A client-streaming call queues the decoded requests in arrival order. *)
Lemma client_stream_collects f (bs : list bytes) (reqs : list RequestMessage) :
  callback h = ClientStreamCallback f ->
  Forall2 (fun b r => request_decode h b = Ok r) bs reqs ->
  forall q, fold_left (on_frame h) (map Frame bs) (open_with q) = open_with (q ++ reqs).
Proof.
  intros Hcb. induction 1 as [|b r bs reqs Hd _ IH]; intros q; simpl.
  - now rewrite app_nil_r.
  - unfold on_frame at 2. simpl. rewrite Hd, Hcb.
    unfold deliver. simpl. fold (open_with (q ++ [r])).
    rewrite IH, <- app_assoc. reflexivity.
Qed.

Lemma client_stream_answers f (bs : list bytes) (reqs : list RequestMessage)
    (resp : string) (out : bytes) :
  callback h = ClientStreamCallback f ->
  Forall2 (fun b r => request_decode h b = Ok r) bs reqs ->
  f reqs = Ok resp ->
  response_encode h resp = Ok out ->
  serve h (map Frame bs ++ [EndFrame]) = answered out.
Proof.
  intros Hcb Hd Hf He. unfold serve. rewrite fold_left_app.
  change new_stream with (open_with []).
  rewrite (client_stream_collects f bs reqs Hcb Hd). simpl.
  unfold on_frame. simpl. rewrite Hcb. simpl.
  unfold finish. rewrite Hf, He. reflexivity.
Qed.

(** What the client reads from an answered call: the response, then
    end-of-stream, and end-of-stream again on every further read. *)
Lemma answered_reads (out : bytes) :
  exists s1,
    read (client_view (answered out)) = inr (Message out, s1) /\
    read s1 = inr (EndOfStream, s1).
Proof. eexists. split; reflexivity. Qed.
End Dispatcher.

Section GreeterCall.
Import Common Runtime.
Variable orjson : TextCodec.

Lemma say_hello_resolved :
  find_service "example.GreeterService" [Greeter.build_service_handler orjson]
  = Some (Greeter.build_service_handler orjson) /\
  find_method "sayHello" (method_handlers (Greeter.build_service_handler orjson))
  = Some (say_hello_handler orjson).
Proof. split; reflexivity. Qed.
End GreeterCall.

(** C6. (Greeter service over the runtime of the specification.) A unary
    call that sends one request and closes the write direction gets exactly
    one response, "Hello, name!", followed by end-of-stream; when a second
    request arrives before the end-of-stream, the call is aborted with
    ProtocolViolation and no response is written at all. *)
Theorem unary_one_response_or_violation (orjson : TextCodec) (name : string) :
  roundtrips orjson (Common.request_obj (hello_request name)) ->
  roundtrips orjson (Common.response_obj (hello_response name)) ->
  exists (b out : bytes),
    Greeter.request_serializer orjson name = Ok b /\
    (let s := Runtime.serve (say_hello_handler orjson) [Runtime.Frame b; Runtime.EndFrame] in
     Runtime.outbound s = [out] /\
     Runtime.outbound_closed s = true /\
     Runtime.terminal_error s = None /\
     Greeter.response_deserializer orjson out = Ok (PStr ("Hello, " +:+ name +:+ "!")) /\
     exists s1,
       Runtime.read (Runtime.client_view s) = inr (Runtime.Message out, s1) /\
       Runtime.read s1 = inr (Runtime.EndOfStream, s1)) /\
    Greeter.stub_say_hello orjson name
    = Runtime.Returned (PStr ("Hello, " +:+ name +:+ "!")) /\
    (forall (b2 : bytes) (r2 : Common.RequestMessage) (rest : list Runtime.frame),
        Greeter.request_deserializer orjson b2 = Ok r2 ->
        let s := Runtime.serve (say_hello_handler orjson)
                   (Runtime.Frame b :: Runtime.Frame b2 :: rest) in
        Runtime.terminal_error s = Some Runtime.ProtocolViolation /\
        Runtime.outbound s = [] /\
        Runtime.read (Runtime.client_view s) = inl Runtime.StreamAborted /\
        Runtime.read_response (Greeter.response_deserializer orjson) (inr s)
        = Runtime.CallFailed Runtime.ProtocolViolation).
Proof.
  intros Hq Hr.
  destruct (request_round_trip orjson _ Hq) as (b & Hser & Hdes).
  destruct (response_round_trip orjson _ Hr) as (out & Hser' & Hdes').
  change (Greeter.request_serializer orjson name = Ok b) in Hser.
  assert (Hone : Runtime.serve (say_hello_handler orjson) [Runtime.Frame b; Runtime.EndFrame]
                 = answered out).
  { apply (unary_one_request (say_hello_handler orjson) Greeter.say_hello b out
             (hello_request name) ("Hello, " +:+ name +:+ "!")); try reflexivity.
    - exact Hdes.
    - exact Hser'. }
  assert (Hresp : Greeter.response_deserializer orjson out
                  = Ok (PStr ("Hello, " +:+ name +:+ "!"))).
  { unfold Greeter.response_deserializer. rewrite Hdes'. reflexivity. }
  exists b, out. split; [exact Hser|]. split; [|split].
  - rewrite Hone. simpl. repeat split; try reflexivity; [exact Hresp|].
    apply answered_reads.
  - unfold Greeter.stub_say_hello, Runtime.unary_call.
    rewrite Hser.
    unfold Runtime.dispatch.
    destruct (say_hello_resolved orjson) as [-> ->].
    rewrite Hone. unfold Runtime.read_response. simpl. rewrite Hresp. reflexivity.
  - intros b2 r2 rest H2.
    rewrite (unary_second_request (say_hello_handler orjson) Greeter.say_hello
               b b2 (hello_request name) r2 rest eq_refl Hdes H2).
    repeat split; reflexivity.
Qed.

Lemma unary_one_response_or_violation_witness :
  exists (b out : bytes),
    Greeter.request_serializer RefJson.compact "PythonUser" = Ok b /\
    Runtime.outbound (Runtime.serve (say_hello_handler RefJson.compact)
                        [Runtime.Frame b; Runtime.EndFrame]) = [out] /\
    Greeter.stub_say_hello RefJson.compact "PythonUser"
    = Runtime.Returned (PStr "Hello, PythonUser!") /\
    Runtime.terminal_error
      (Runtime.serve (say_hello_handler RefJson.compact)
         [Runtime.Frame b; Runtime.Frame b; Runtime.EndFrame])
    = Some Runtime.ProtocolViolation.
Proof.
  destruct (unary_one_response_or_violation RefJson.compact "PythonUser")
    as (b & out & Hb & Hone & Hstub & Htwo).
  - eexists. split; vm_compute; reflexivity.
  - eexists. split; vm_compute; reflexivity.
  - exists b, out. split; [exact Hb|]. split; [exact (proj1 Hone)|]. split; [exact Hstub|].
    refine (proj1 (Htwo b (hello_request "PythonUser") [Runtime.EndFrame] _)).
    assert (Hb' : Ok b = Greeter.request_serializer RefJson.compact "PythonUser")
      by (symmetry; exact Hb).
    vm_compute in Hb'. injection Hb' as ->. vm_compute. reflexivity.
Defined.

(** ** stream/server.py over the runtime: client streaming *)

Section StreamingCall.
Import Common Runtime.
Variable orjson : TextCodec.

Lemma process_names_resolved :
  find_service "example.StreamingService" [Streaming.build_service_handler orjson]
  = Some (Streaming.build_service_handler orjson) /\
  find_method "processNames" (method_handlers (Streaming.build_service_handler orjson))
  = Some (process_names_handler orjson).
Proof. split; reflexivity. Qed.

(** The client serializes the names in order, and every frame decodes to
    the request of its name. *)
Lemma names_serialized (names : list string) :
  Forall (fun n => roundtrips orjson (request_obj (name_request n))) names ->
  exists bs,
    traverse (Streaming.request_serializer orjson) names = Ok bs /\
    Forall2 (fun b r => Streaming.request_deserializer orjson b = Ok r)
      bs (map name_request names).
Proof.
  induction 1 as [|n names Hn _ (bs & Ht & Hf)].
  - exists []. split; [reflexivity | constructor].
  - destruct (request_round_trip orjson _ Hn) as (b & Hser & Hdes).
    exists (b :: bs). split.
    + simpl. change (Streaming.request_serializer orjson n) with
        (serialize orjson (name_request n)). rewrite Hser. simpl. rewrite Ht. reflexivity.
    + simpl. constructor; [exact Hdes | exact Hf].
Qed.

(** The loop prints one line per request, in the order of the requests,
    and joins the names with ", ". *)
Lemma process_loop_names (names : list string) :
  forall (combined : string) (out : list event),
    Streaming.process_loop combined out (map name_request names)
    = ((out ++ map (fun n => Print ("Received name: " +:+ n)) names)%list,
       Ok (fold_left (fun acc n =>
                        (if negb (String.eqb acc "") then acc +:+ ", " else acc) +:+ n)
             names combined)).
Proof.
  induction names as [|n names IH]; intros combined out; simpl.
  - now rewrite app_nil_r.
  - rewrite IH, <- app_assoc. reflexivity.
Qed.
End StreamingCall.

(** C2. (Streaming service over the runtime of the specification.) For the
    client-streaming call with the names Alice, Bob, Charlie, David, the
    requests queued for the callback are those of the four names in that
    order, [process_names] sees (prints) them in that order and returns the
    one string "Processed 4 names: Alice, Bob, Charlie, David"; that single
    response is written before the outbound direction is closed, so the
    client reads it first and end-of-stream after it. *)
Theorem client_stream_four_names (orjson : TextCodec) :
  Forall (fun n => roundtrips orjson (Common.request_obj (name_request n))) four_names ->
  roundtrips orjson (Common.response_obj {| Common.result_ := PStr four_names_reply |}) ->
  exists (bs : list bytes) (out : bytes),
    traverse (Streaming.request_serializer orjson) four_names = Ok bs /\
    Runtime.inbound (Runtime.serve (process_names_handler orjson) (map Runtime.Frame bs))
    = map name_request four_names /\
    Streaming.process_names (map name_request four_names)
    = ([Print "Received name: Alice"; Print "Received name: Bob";
        Print "Received name: Charlie"; Print "Received name: David"],
       Ok four_names_reply) /\
    (let s := Runtime.serve (process_names_handler orjson)
                (map Runtime.Frame bs ++ [Runtime.EndFrame]) in
     Runtime.outbound s = [out] /\
     Runtime.outbound_closed s = true /\
     Runtime.terminal_error s = None /\
     Streaming.response_deserializer orjson out = Ok (PStr four_names_reply) /\
     exists s1,
       Runtime.read (Runtime.client_view s) = inr (Runtime.Message out, s1) /\
       Runtime.read s1 = inr (Runtime.EndOfStream, s1)) /\
    Streaming.stub_process_names orjson four_names
    = Runtime.Returned (PStr four_names_reply).
Proof.
  intros Hnames Hreply.
  destruct (names_serialized orjson four_names Hnames) as (bs & Hbs & Hdec).
  destruct (response_round_trip orjson _ Hreply) as (out & Hser & Hdes).
  assert (Hrun : Streaming.process_names (map name_request four_names)
                 = ([Print "Received name: Alice"; Print "Received name: Bob";
                     Print "Received name: Charlie"; Print "Received name: David"],
                    Ok four_names_reply)) by (vm_compute; reflexivity).
  assert (Hall : Runtime.serve (process_names_handler orjson)
                   (map Runtime.Frame bs ++ [Runtime.EndFrame]) = answered out).
  { apply (client_stream_answers (process_names_handler orjson)
             (fun it => snd (Streaming.process_names it)) bs
             (map name_request four_names) four_names_reply out);
      [reflexivity | exact Hdec | now rewrite Hrun | exact Hser]. }
  assert (Hresp : Streaming.response_deserializer orjson out = Ok (PStr four_names_reply)).
  { unfold Streaming.response_deserializer. rewrite Hdes. reflexivity. }
  exists bs, out. split; [exact Hbs|]. split; [|split; [exact Hrun|split]].
  - unfold Runtime.serve. change Runtime.new_stream with (open_with []).
    rewrite (client_stream_collects (process_names_handler orjson) _ bs
               (map name_request four_names) eq_refl Hdec).
    reflexivity.
  - rewrite Hall. simpl. repeat split; try reflexivity; [exact Hresp|].
    apply answered_reads.
  - unfold Streaming.stub_process_names, Runtime.client_stream_call.
    rewrite Hbs. unfold Runtime.dispatch.
    destruct (process_names_resolved orjson) as [-> ->].
    rewrite Hall. unfold Runtime.read_response. simpl. rewrite Hresp. reflexivity.
Qed.

Lemma client_stream_four_names_witness :
  Streaming.stub_process_names RefJson.compact four_names
  = Runtime.Returned (PStr four_names_reply).
Proof.
  destruct (client_stream_four_names RefJson.compact) as (bs & out & _ & _ & _ & _ & H).
  - repeat constructor; eexists; split; vm_compute; reflexivity.
  - eexists. split; vm_compute; reflexivity.
  - exact H.
Defined.

(** ** Decoding malformed input *)

(** The reference writer starts a non-empty object with a brace and the
    quote of its first key. *)
Lemma write_nonempty_object (item_sep key_sep k : string) (x : pyval)
    (d : list (string * pyval)) (b : bytes) :
  RefJson.write item_sep key_sep (PDict ((k, x) :: d)) = Ok b ->
  exists rest, b = String "{" (String RefJson.quote rest).
Proof.
  intros H. cbn [RefJson.write] in H. unfold RefJson.write_string in H.
  destruct (RefJson.write_chars k) as [ck|]; [|destruct d as [|[] ?]; discriminate H].
  destruct (RefJson.write item_sep key_sep x) as [bx|];
    [|destruct d as [|[] ?]; discriminate H].
  destruct d as [|[k' x'] d'].
  - cbn in H. injection H as <-. eexists. reflexivity.
  - cbn [bind] in H.
    match type of H with
    | bind (bind ?m _) _ = _ => destruct m as [c|]; [|discriminate H]
    end.
    cbn in H. injection H as <-. eexists. reflexivity.
Qed.

Lemma create_user_request_not_empty_object (request : Current.CreateUserRequest) :
  Current.serialize_create_user_request RefJson.json request <> Ok "{}".
Proof.
  unfold Current.serialize_create_user_request. intros H.
  change (dumps RefJson.json) with (RefJson.write ", " ": ") in H.
  apply write_nonempty_object in H as [rest Hrest]. discriminate Hrest.
Qed.

(** C3, refuted as stated: the two bytes of an empty JSON object are the
    encoding of no CreateUserRequest, and [deserialize_create_user_request]
    returns a default-filled request for them instead of raising; likewise
    [deserialize_user] on the empty dict. *)
Lemma decode_fills_defaults_counterexample :
  (forall request, Current.serialize_create_user_request RefJson.json request <> Ok "{}") /\
  Current.deserialize_create_user_request RefJson.json "{}"
  = Ok {| Current.user := default_user |} /\
  Current.deserialize_user (PDict []) = Ok default_user /\
  ~ rejects_malformed (Current.serialize_create_user_request RefJson.json)
                      (Current.deserialize_create_user_request RefJson.json).
Proof.
  split; [exact create_user_request_not_empty_object|].
  split; [vm_compute; reflexivity|].
  split; [reflexivity|].
  intros H. destruct (H "{}" create_user_request_not_empty_object) as [e He].
  vm_compute in He. discriminate He.
Qed.

Section DecodeErrors.
Variables orjson json : TextCodec.

Lemma subscript_not_dict (v : pyval) (k : string) :
  is_dict v = false -> subscript v k = Raise TypeError.
Proof. destruct v; simpl; intros H; try reflexivity; discriminate. Qed.

Lemma get_default_not_dict (v : pyval) (k : string) (dflt : pyval) :
  is_dict v = false -> get_default v k dflt = Raise AttributeError.
Proof. destruct v; simpl; intros H; try reflexivity; discriminate. Qed.

Lemma get_default_dict (d : list (string * pyval)) (k : string) (dflt : pyval) :
  get_default (PDict d) k dflt = Ok (default dflt (dict_get k d)).
Proof. simpl. destruct (dict_get k d); reflexivity. Qed.

(** On an object without an address, [deserialize_user] never fails: each
    field is the value under its key, or the default of the field. *)
Lemma deserialize_user_defaults (d : list (string * pyval)) :
  dict_get "address" d = None ->
  Current.deserialize_user (PDict d)
  = Ok {| Current.id := default (PInt 0) (dict_get "id" d);
          Current.name := default (PStr "") (dict_get "name" d);
          Current.email := default (PStr "") (dict_get "email" d);
          Current.active := default (PBool true) (dict_get "active" d);
          Current.roles := default (PList []) (dict_get "roles" d);
          Current.address := None;
          Current.metadata := default (PDict []) (dict_get "metadata" d) |}.
Proof.
  intros Ha. unfold Current.deserialize_user.
  rewrite !get_default_dict, Ha. reflexivity.
Qed.
End DecodeErrors.

Section ManualDecoders.
Variable json : TextCodec.

Lemma deserialize_address_falsy (v : pyval) :
  truthy v = false -> Current.deserialize_address v = Ok None.
Proof. intros H. unfold Current.deserialize_address. now rewrite H. Qed.

Lemma deserialize_address_object (d : list (string * pyval)) :
  d <> [] -> Current.deserialize_address (PDict d) = Ok (Some (address_fields d)).
Proof.
  intros Hd. destruct d as [|kv d]; [congruence|].
  unfold Current.deserialize_address.
  change (truthy (PDict (kv :: d))) with true. cbn [negb].
  rewrite !get_default_dict. reflexivity.
Qed.

Lemma deserialize_address_other (v : pyval) :
  truthy v = true -> is_dict v = false ->
  Current.deserialize_address v = Raise AttributeError.
Proof.
  intros Ht Hd. unfold Current.deserialize_address. rewrite Ht. cbn [negb].
  now rewrite (get_default_not_dict v "street" (PStr "") Hd).
Qed.

Lemma deserialize_user_not_dict (v : pyval) :
  is_dict v = false -> Current.deserialize_user v = Raise AttributeError.
Proof.
  intros Hd. unfold Current.deserialize_user.
  now rewrite (get_default_not_dict v "id" (PInt 0) Hd).
Qed.

Lemma deserialize_user_object (d : list (string * pyval)) :
  Current.deserialize_user (PDict d)
  = (let! a := Current.deserialize_address (default PNone (dict_get "address" d)) in
     Ok (user_fields d a)).
Proof.
  unfold Current.deserialize_user. rewrite !get_default_dict. cbn [bind].
  destruct (Current.deserialize_address (default PNone (dict_get "address" d)));
    reflexivity.
Qed.

Lemma manual_decoders_not_dict (data : bytes) (v : pyval) :
  loads json data = Ok v -> is_dict v = false ->
  Current.deserialize_create_user_request json data = Raise AttributeError /\
  Current.deserialize_create_user_response json data = Raise AttributeError /\
  Current.deserialize_get_user_request json data = Raise AttributeError /\
  Current.deserialize_get_user_response json data = Raise AttributeError.
Proof.
  intros Hl Hd.
  unfold Current.deserialize_create_user_request,
    Current.deserialize_create_user_response,
    Current.deserialize_get_user_request, Current.deserialize_get_user_response.
  rewrite Hl. cbn [bind].
  rewrite (get_default_not_dict v "user" (PDict []) Hd),
    (get_default_not_dict v "user" PNone Hd), (get_default_not_dict v "id" (PInt 0) Hd).
  repeat split; reflexivity.
Qed.

Lemma manual_decoders_object (data : bytes) (d : list (string * pyval)) :
  loads json data = Ok (PDict d) ->
  Current.deserialize_create_user_request json data
  = (let! u := Current.deserialize_user (default (PDict []) (dict_get "user" d)) in
     Ok {| Current.user := u |}) /\
  Current.deserialize_create_user_response json data
  = (let! u := Current.deserialize_user (default (PDict []) (dict_get "user" d)) in
     Ok {| Current.created_user := u;
           Current.status := default (PStr "") (dict_get "status" d);
           Current.created_at := default (PInt 0) (dict_get "created_at" d) |}) /\
  Current.deserialize_get_user_request json data
  = Ok {| Current.requested_id := default (PInt 0) (dict_get "id" d) |} /\
  Current.deserialize_get_user_response json data
  = (if truthy (default PNone (dict_get "user" d))
     then let! u := Current.deserialize_user (default PNone (dict_get "user" d)) in
          Ok {| Current.found_user := Some u |}
     else Ok {| Current.found_user := None |}).
Proof.
  intros Hl.
  unfold Current.deserialize_create_user_request,
    Current.deserialize_create_user_response,
    Current.deserialize_get_user_request, Current.deserialize_get_user_response.
  rewrite Hl. cbn [bind]. rewrite !get_default_dict. cbn [bind].
  split; [reflexivity|]. split; [|split; reflexivity].
  destruct (Current.deserialize_user (default (PDict []) (dict_get "user" d)));
    reflexivity.
Qed.
End ManualDecoders.

(** C3, amended. Every decode entry point raises, with the error of the JSON
    library, when the library rejects the bytes (truncated or malformed JSON
    text); no value is produced. On parsed JSON:
    - [RequestMessage.deserialize] and [ResponseMessage.deserialize] raise
      TypeError when the value is not an object and KeyError when "method",
      "params" or "result" is missing; they fill in nothing.
    - The four current_approach entry points raise AttributeError when the
      parsed value is not an object. [deserialize_user] raises AttributeError
      when the value it is given is not an object (so a request whose "user"
      is a number or null is rejected by [deserialize_create_user_request]),
      and when the value under "address" is truthy and not an object.
    - In every other case they return a message and do not reject missing
      fields: an absent "user" is read as the empty object, an absent or
      falsy "address" as None, and each absent field gets its default (id 0,
      name and email empty, active True, roles [], metadata {}, status
      empty, created_at 0, each absent address key empty); in
      [deserialize_get_user_response] an absent or falsy "user" gives None.
      In particular the empty object decodes to the default-filled user. *)
Theorem decode_rejects_or_fills_defaults (orjson json : TextCodec) (data : bytes) :
  (forall e, loads orjson data = Raise e ->
     Common.deserialize orjson data = Raise e /\
     Common.deserialize_response orjson data = Raise e) /\
  (forall e, loads json data = Raise e ->
     Current.deserialize_create_user_request json data = Raise e /\
     Current.deserialize_create_user_response json data = Raise e /\
     Current.deserialize_get_user_request json data = Raise e /\
     Current.deserialize_get_user_response json data = Raise e) /\
  (forall v, loads orjson data = Ok v ->
     (is_dict v = false ->
        Common.deserialize orjson data = Raise TypeError /\
        Common.deserialize_response orjson data = Raise TypeError) /\
     (forall d, v = PDict d -> dict_get "method" d = None ->
                Common.deserialize orjson data = Raise (KeyError "method")) /\
     (forall d m, v = PDict d -> dict_get "method" d = Some m ->
                  dict_get "params" d = None ->
                  Common.deserialize orjson data = Raise (KeyError "params")) /\
     (forall d, v = PDict d -> dict_get "result" d = None ->
                Common.deserialize_response orjson data = Raise (KeyError "result"))) /\
  (forall v, loads json data = Ok v ->
     (is_dict v = false ->
        Current.deserialize_create_user_request json data = Raise AttributeError /\
        Current.deserialize_create_user_response json data = Raise AttributeError /\
        Current.deserialize_get_user_request json data = Raise AttributeError /\
        Current.deserialize_get_user_response json data = Raise AttributeError) /\
     (forall d, v = PDict d ->
        Current.deserialize_create_user_request json data
        = (let! u := Current.deserialize_user (default (PDict []) (dict_get "user" d)) in
           Ok {| Current.user := u |}) /\
        Current.deserialize_create_user_response json data
        = (let! u := Current.deserialize_user (default (PDict []) (dict_get "user" d)) in
           Ok {| Current.created_user := u;
                 Current.status := default (PStr "") (dict_get "status" d);
                 Current.created_at := default (PInt 0) (dict_get "created_at" d) |}) /\
        Current.deserialize_get_user_request json data
        = Ok {| Current.requested_id := default (PInt 0) (dict_get "id" d) |} /\
        Current.deserialize_get_user_response json data
        = (if truthy (default PNone (dict_get "user" d))
           then let! u := Current.deserialize_user (default PNone (dict_get "user" d)) in
                Ok {| Current.found_user := Some u |}
           else Ok {| Current.found_user := None |})) /\
     (forall d u, v = PDict d -> dict_get "user" d = Some u -> is_dict u = false ->
        Current.deserialize_create_user_request json data = Raise AttributeError) /\
     (forall d, v = PDict d -> dict_get "user" d = None ->
        Current.deserialize_create_user_request json data
        = Ok {| Current.user := default_user |})) /\
  (forall v, is_dict v = false -> Current.deserialize_user v = Raise AttributeError) /\
  (forall d,
     Current.deserialize_user (PDict d)
     = (let! a := Current.deserialize_address (default PNone (dict_get "address" d)) in
        Ok (user_fields d a))) /\
  (forall d, dict_get "address" d = None ->
     Current.deserialize_user (PDict d) = Ok (user_fields d None)) /\
  (forall v, truthy v = false -> Current.deserialize_address v = Ok None) /\
  (forall d, d <> [] ->
     Current.deserialize_address (PDict d) = Ok (Some (address_fields d))) /\
  (forall v, truthy v = true -> is_dict v = false ->
     Current.deserialize_address v = Raise AttributeError) /\
  Current.deserialize_user (PDict []) = Ok default_user.
Proof.
  split; [|split; [|split; [|split]]].
  - intros e H. unfold Common.deserialize, Common.deserialize_response.
    rewrite H. split; reflexivity.
  - intros e H.
    unfold Current.deserialize_create_user_request,
      Current.deserialize_create_user_response,
      Current.deserialize_get_user_request, Current.deserialize_get_user_response.
    rewrite H. repeat split; reflexivity.
  - intros v H. unfold Common.deserialize, Common.deserialize_response.
    rewrite H. cbn [bind]. split; [|split; [|split]].
    + intros Hd.
      rewrite (subscript_not_dict v "method" Hd), (subscript_not_dict v "result" Hd).
      split; reflexivity.
    + intros d -> Hm. simpl. now rewrite Hm.
    + intros d m -> Hm Hp. simpl. rewrite Hm. simpl. now rewrite Hp.
    + intros d -> Hr. simpl. now rewrite Hr.
  - intros v H. split; [|split; [|split]].
    + intros Hd. exact (manual_decoders_not_dict json data v H Hd).
    + intros d ->. exact (manual_decoders_object json data d H).
    + intros d u -> Hu Hd.
      rewrite (proj1 (manual_decoders_object json data d H)), Hu. cbn [default from_option id].
      now rewrite (deserialize_user_not_dict u Hd).
    + intros d -> Hu.
      rewrite (proj1 (manual_decoders_object json data d H)), Hu. reflexivity.
  - split; [exact deserialize_user_not_dict|].
    split; [exact deserialize_user_object|].
    split.
    { intros d Ha. rewrite deserialize_user_object, Ha. reflexivity. }
    split; [exact deserialize_address_falsy|].
    split; [exact deserialize_address_object|].
    split; [exact deserialize_address_other | reflexivity].
Qed.

Lemma decode_rejects_or_fills_defaults_witness :
  Common.deserialize RefJson.compact "{" = Raise JSONDecodeError /\
  Current.deserialize_create_user_request RefJson.json "{" = Raise JSONDecodeError /\
  Common.deserialize RefJson.compact "[]" = Raise TypeError /\
  Common.deserialize RefJson.compact "{}" = Raise (KeyError "method") /\
  Current.deserialize_create_user_request RefJson.json "[]" = Raise AttributeError /\
  Current.deserialize_get_user_response RefJson.json "[]" = Raise AttributeError /\
  Current.deserialize_create_user_request RefJson.json "{}"
  = Ok {| Current.user := default_user |} /\
  Current.deserialize_create_user_request RefJson.json user_five_bytes
  = Raise AttributeError /\
  Current.deserialize_create_user_request RefJson.json address_seven_bytes
  = Raise AttributeError /\
  Current.deserialize_create_user_request RefJson.json partial_address_bytes
  = Ok {| Current.user :=
            {| Current.id := PInt 1; Current.name := PStr ""; Current.email := PStr "";
               Current.active := PBool true; Current.roles := PList [];
               Current.address :=
                 Some {| Current.street := PStr ""; Current.city := PStr "Oslo";
                         Current.country := PStr ""; Current.postal_code := PStr "" |};
               Current.metadata := PDict [] |} |} /\
  Current.deserialize_user (PDict truncated_user)
  = Ok {| Current.id := PInt 7; Current.name := PStr "John Doe";
          Current.email := PStr ""; Current.active := PBool true;
          Current.roles := PList []; Current.address := None;
          Current.metadata := PDict [] |}.
Proof.
  pose proof (decode_rejects_or_fills_defaults RefJson.compact RefJson.json "{")
    as (H1 & H2 & _).
  pose proof (decode_rejects_or_fills_defaults RefJson.compact RefJson.json "[]")
    as (_ & _ & H3 & H4 & _).
  pose proof (decode_rejects_or_fills_defaults RefJson.compact RefJson.json "{}")
    as (_ & _ & H5 & H6 & _ & _ & H7 & _).
  pose proof (decode_rejects_or_fills_defaults RefJson.compact RefJson.json user_five_bytes)
    as (_ & _ & _ & H8 & _).
  pose proof (decode_rejects_or_fills_defaults RefJson.compact RefJson.json
                address_seven_bytes) as (_ & _ & _ & H9 & _ & Hu & _ & _ & _ & Ho).
  pose proof (decode_rejects_or_fills_defaults RefJson.compact RefJson.json
                partial_address_bytes) as (_ & _ & _ & H10 & _ & Hu' & _ & _ & Ha & _).
  split; [exact (proj1 (H1 JSONDecodeError eq_refl))|].
  split; [exact (proj1 (H2 JSONDecodeError eq_refl))|].
  split; [exact (proj1 (proj1 (H3 (PList []) eq_refl) eq_refl))|].
  split; [exact (proj1 (proj2 (H5 (PDict []) eq_refl)) [] eq_refl eq_refl)|].
  split; [exact (proj1 (proj1 (H4 (PList []) eq_refl) eq_refl))|].
  split; [exact (proj2 (proj2 (proj2 (proj1 (H4 (PList []) eq_refl) eq_refl))))|].
  split; [exact (proj2 (proj2 (proj2 (H6 (PDict []) eq_refl))) [] eq_refl eq_refl)|].
  split.
  { exact (proj1 (proj2 (proj2 (H8 (PDict [("user", PInt 5)]) eq_refl)))
             [("user", PInt 5)] (PInt 5) eq_refl eq_refl eq_refl). }
  split.
  { pose proof (proj1 (proj1 (proj2
        (H9 (PDict [("user", PDict [("id", PInt 1); ("address", PInt 7)])]) eq_refl))
        [("user", PDict [("id", PInt 1); ("address", PInt 7)])] eq_refl)) as E.
    cbn [dict_get String.eqb Ascii.eqb Bool.eqb from_option id] in E.
    rewrite E, Hu. cbn [dict_get String.eqb Ascii.eqb Bool.eqb from_option id].
    now rewrite (proj1 Ho (PInt 7) eq_refl eq_refl). }
  split.
  { pose proof (proj1 (proj1 (proj2
        (H10 (PDict [("user", PDict [("id", PInt 1);
                                     ("address", PDict [("city", PStr "Oslo")])])])
           eq_refl))
        [("user", PDict [("id", PInt 1); ("address", PDict [("city", PStr "Oslo")])])]
        eq_refl)) as E.
    cbn [dict_get String.eqb Ascii.eqb Bool.eqb from_option id] in E.
    rewrite E, Hu'. cbn [dict_get String.eqb Ascii.eqb Bool.eqb from_option id].
    rewrite (Ha [("city", PStr "Oslo")]); [reflexivity | discriminate]. }
  exact (H7 truncated_user eq_refl).
Defined.

(** ** demo/improved_approach: the format selector *)

Section PydanticRoundTrip.
Import Improved.
Variable fv : FieldValidators.
Hypothesis typed : validators_accept_typed fv.

Lemma validate_int_typed (z : Z) : validate_int fv (PInt z) = Ok z.
Proof. apply typed. Qed.

Lemma validate_str_typed (x : string) : validate_str fv (PStr x) = Ok x.
Proof. apply typed. Qed.

Lemma validate_bool_typed (b : bool) : validate_bool fv (PBool b) = Ok b.
Proof. apply typed. Qed.

Lemma validate_list_str_dump (l : list string) :
  validate_list_str fv (PList (map PStr l)) = Ok l.
Proof.
  simpl. induction l as [|x l IH]; simpl; [reflexivity|].
  now rewrite validate_str_typed, IH.
Qed.

Lemma validate_dict_str_dump (m : list (string * string)) :
  validate_dict_str fv (PDict (map (fun kv => (fst kv, PStr (snd kv))) m)) = Ok m.
Proof.
  simpl. induction m as [|[k x] m IH]; simpl; [reflexivity|].
  now rewrite validate_str_typed, IH.
Qed.

Lemma validate_address_dump (a : Address) :
  validate_address fv (dump_address a) = Ok a.
Proof.
  destruct a as [s c n p]. unfold validate_address, dump_address, required. simpl.
  now rewrite !validate_str_typed.
Qed.

Lemma validate_optional_address_dump (o : option Address) :
  validate_optional (validate_address fv) (dump_optional dump_address o) = Ok o.
Proof.
  destruct o as [a|]; [|reflexivity].
  unfold validate_optional. simpl dump_optional.
  change (dump_address a) with
    (PDict [("street", PStr (street a)); ("city", PStr (city a));
            ("country", PStr (country a)); ("postal_code", PStr (postal_code a))]).
  cbv beta iota.
  change (PDict [("street", PStr (street a)); ("city", PStr (city a));
                 ("country", PStr (country a)); ("postal_code", PStr (postal_code a))])
    with (dump_address a).
  now rewrite validate_address_dump.
Qed.

Lemma validate_user_dump (u : User) :
  validate_user fv (dump_user u) = Ok u.
Proof.
  destruct u as [i n e a r ad m].
  unfold validate_user, dump_user, required, with_default.
  cbn [dict_get String.eqb Ascii.eqb Bool.eqb id name email active roles address metadata].
  rewrite validate_int_typed, !validate_str_typed, validate_bool_typed,
    validate_list_str_dump, validate_optional_address_dump, validate_dict_str_dump.
  reflexivity.
Qed.

Lemma validate_optional_user_dump (o : option User) :
  validate_optional (validate_user fv) (dump_optional dump_user o) = Ok o.
Proof.
  destruct o as [u|]; [|reflexivity].
  pose proof (validate_user_dump u) as H.
  unfold validate_optional. simpl dump_optional.
  unfold dump_user in *. cbv beta iota. now rewrite H.
Qed.

(** Validation is a left inverse of [model_dump] on every model class. *)
Lemma model_validate_dump (c : model_class) (m : model_type c) :
  model_validate fv c (model_dump c m) = Ok m.
Proof.
  destruct c; simpl in m |- *.
  - apply validate_address_dump.
  - apply validate_user_dump.
  - destruct m as [u]. unfold required.
    cbn [dict_get String.eqb Ascii.eqb Bool.eqb user].
    now rewrite validate_user_dump.
  - destruct m as [u st t]. unfold required.
    cbn [dict_get String.eqb Ascii.eqb Bool.eqb created_user status created_at].
    now rewrite validate_user_dump, validate_str_typed, validate_int_typed.
  - destruct m as [i]. unfold required.
    cbn [dict_get String.eqb Ascii.eqb Bool.eqb requested_id].
    now rewrite validate_int_typed.
  - destruct m as [o]. unfold with_default.
    cbn [dict_get String.eqb Ascii.eqb Bool.eqb found_user].
    now rewrite validate_optional_user_dump.
Qed.

Variable pyd : TextCodec.

Lemma json_format_round_trip (c : model_class) (m : model_type c) :
  roundtrips pyd (model_dump c m) ->
  exists b, serialize_model pyd c m JSON = Ok b /\
            deserialize_model pyd fv b c JSON = Ok m.
Proof.
  intros (b & Hd & Hl). exists b. split; [exact Hd|].
  unfold deserialize_model, deserialize, model_validate_json.
  rewrite Hl. apply model_validate_dump.
Qed.

Lemma protobuf_serialize_constant (c : model_class) (m : model_type c) :
  serialize_model pyd c m PROTOBUF = Ok "mock_serialized_protobuf".
Proof. destruct c; reflexivity. Qed.

Lemma protobuf_deserialize_empty (c : model_class) (data : bytes) :
  deserialize_model pyd fv data c PROTOBUF = model_validate fv c (PDict []).
Proof. destruct c; reflexivity. Qed.
End PydanticRoundTrip.

Lemma strict_validators_accept_typed : validators_accept_typed strict_validators.
Proof. repeat split. Qed.

(** C4, refuted as stated: with the PROTOBUF selector, [GetUserRequest(id=1)]
    is serialized to the constant bytes of the mock and deserializing them
    raises a validation error instead of returning the request. *)
Lemma protobuf_round_trip_counterexample :
  Improved.serialize_model RefJson.compact Improved.ClsGetUserRequest request_one
    Improved.PROTOBUF = Ok "mock_serialized_protobuf" /\
  Improved.deserialize_model RefJson.compact strict_validators "mock_serialized_protobuf"
    Improved.ClsGetUserRequest Improved.PROTOBUF = Raise ValidationError /\
  ~ format_round_trip RefJson.compact strict_validators.
Proof.
  split; [reflexivity|]. split; [reflexivity|].
  intros H.
  destruct (H Improved.PROTOBUF Improved.ClsGetUserRequest request_one) as (b & Hs & Hd).
  vm_compute in Hs. injection Hs as <-. vm_compute in Hd. discriminate Hd.
Qed.

(** C4, amended. [serialize_model] and [deserialize_model] dispatch on the
    format selector. With JSON, for every model value whose dump the
    Pydantic JSON codec carries, deserializing the serialized bytes returns
    the value. With PROTOBUF and the mock protobuf module of the repository,
    [serialize_model] returns the constant bytes "mock_serialized_protobuf"
    for every value and [deserialize_model] validates the empty dict whatever
    the bytes are. *)
Theorem format_selector_dispatch (pyd : TextCodec) (fv : FieldValidators)
    (c : Improved.model_class) (m : Improved.model_type c) :
  validators_accept_typed fv ->
  roundtrips pyd (Improved.model_dump c m) ->
  (exists b, Improved.serialize_model pyd c m Improved.JSON = Ok b /\
             Improved.deserialize_model pyd fv b c Improved.JSON = Ok m) /\
  Improved.serialize_model pyd c m Improved.JSON = Improved.model_dump_json pyd c m /\
  (forall data, Improved.deserialize_model pyd fv data c Improved.JSON
                = Improved.model_validate_json pyd fv c data) /\
  Improved.serialize_model pyd c m Improved.PROTOBUF = Ok "mock_serialized_protobuf" /\
  (forall data, Improved.deserialize_model pyd fv data c Improved.PROTOBUF
                = Improved.model_validate fv c (PDict [])).
Proof.
  intros Hfv Hrt. split; [|split; [|split; [|split]]].
  - now apply json_format_round_trip.
  - reflexivity.
  - reflexivity.
  - apply protobuf_serialize_constant.
  - apply protobuf_deserialize_empty.
Qed.

Lemma format_selector_dispatch_witness :
  exists b,
    Improved.serialize_model RefJson.compact Improved.ClsCreateUserRequest create_john
      Improved.JSON = Ok b /\
    Improved.deserialize_model RefJson.compact strict_validators b
      Improved.ClsCreateUserRequest Improved.JSON = Ok create_john.
Proof.
  refine (proj1 (format_selector_dispatch RefJson.compact strict_validators
                   Improved.ClsCreateUserRequest create_john _ _)).
  - exact strict_validators_accept_typed.
  - eexists. split; vm_compute; reflexivity.
Defined.

(** ** The two JSON approaches on the wire *)

(** Both approaches build the same JSON object for a user. *)
Lemma serialize_user_is_dump (u : Improved.User) :
  Current.serialize_user (to_current_user u) = Improved.dump_user u.
Proof.
  destruct u as [i n e a r [ad|] m]; reflexivity.
Qed.

Lemma deserialize_address_of_dump (o : option Improved.Address) :
  Current.deserialize_address (Improved.dump_optional Improved.dump_address o)
  = Ok (option_map to_current_address o).
Proof.
  destruct o as [[s c n p]|]; reflexivity.
Qed.

(** The manual deserializer reads the Pydantic dump of a user back to the
    corresponding dataclass value. *)
Lemma deserialize_user_of_dump (u : Improved.User) :
  Current.deserialize_user (Improved.dump_user u) = Ok (to_current_user u).
Proof.
  destruct u as [i n e a r ad m].
  unfold Current.deserialize_user, Improved.dump_user, get_default.
  cbn [dict_get String.eqb Ascii.eqb Bool.eqb bind
       Improved.id Improved.name Improved.email Improved.active Improved.roles
       Improved.address Improved.metadata].
  rewrite deserialize_address_of_dump. reflexivity.
Qed.

Lemma create_user_request_objects_equal (r : Improved.CreateUserRequest) :
  PDict [("user", Current.serialize_user (Current.user (to_current_request r)))]
  = Improved.model_dump Improved.ClsCreateUserRequest r.
Proof.
  destruct r as [u]. simpl. now rewrite serialize_user_is_dump.
Qed.

(** C9. For every user value, the manual JSON serializer applied to the
    dataclass request and [serialize_model] with the JSON selector applied to
    the corresponding Pydantic request both succeed and their outputs parse
    to the same JSON object; the manual deserializer turns the Pydantic
    output into the corresponding dataclass request, and the Pydantic
    deserializer turns the manual output into the Pydantic request
    (the json and pydantic-core codecs being conforming on that object:
    json reads what itself and pydantic-core write for it, and
    pydantic-core reads what json writes for it). *)
Theorem json_wire_formats_interchangeable (json pyd : TextCodec) (fv : FieldValidators)
    (r : Improved.CreateUserRequest) :
  validators_accept_typed fv ->
  roundtrips json (Improved.model_dump Improved.ClsCreateUserRequest r) ->
  reads_back json pyd (Improved.model_dump Improved.ClsCreateUserRequest r) ->
  reads_back pyd json (Improved.model_dump Improved.ClsCreateUserRequest r) ->
  exists (manual pydantic : bytes),
    Current.serialize_create_user_request json (to_current_request r) = Ok manual /\
    Improved.serialize_model pyd Improved.ClsCreateUserRequest r Improved.JSON
    = Ok pydantic /\
    loads json manual = Ok (Improved.model_dump Improved.ClsCreateUserRequest r) /\
    loads json pydantic = Ok (Improved.model_dump Improved.ClsCreateUserRequest r) /\
    Current.deserialize_create_user_request json pydantic = Ok (to_current_request r) /\
    Improved.deserialize_model pyd fv manual Improved.ClsCreateUserRequest Improved.JSON
    = Ok r.
Proof.
  intros Hfv (bm & Hdm & Hlm) (bm' & Hdm' & Hlm') (bp & Hdp & Hlp).
  rewrite Hdm in Hdm'. injection Hdm' as <-.
  exists bm, bp. repeat split.
  - unfold Current.serialize_create_user_request.
    now rewrite create_user_request_objects_equal.
  - exact Hdp.
  - exact Hlm.
  - exact Hlp.
  - unfold Current.deserialize_create_user_request. rewrite Hlp.
    destruct r as [u]. simpl. rewrite deserialize_user_of_dump. reflexivity.
  - unfold Improved.deserialize_model, Improved.deserialize, Improved.model_validate_json.
    rewrite Hlm'. now apply model_validate_dump.
Qed.

Lemma json_wire_formats_interchangeable_witness :
  exists (manual pydantic : bytes),
    Current.serialize_create_user_request RefJson.json (to_current_request create_john)
    = Ok manual /\
    Improved.serialize_model RefJson.compact Improved.ClsCreateUserRequest create_john
      Improved.JSON = Ok pydantic /\
    manual <> pydantic /\
    loads RefJson.json manual = loads RefJson.json pydantic /\
    Current.deserialize_create_user_request RefJson.json pydantic
    = Ok (to_current_request create_john) /\
    Improved.deserialize_model RefJson.compact strict_validators manual
      Improved.ClsCreateUserRequest Improved.JSON = Ok create_john.
Proof.
  destruct (json_wire_formats_interchangeable RefJson.json RefJson.compact
              strict_validators create_john)
    as (manual & pydantic & Hm & Hp & Hlm & Hlp & Hc & Hi).
  - exact strict_validators_accept_typed.
  - eexists. split; vm_compute; reflexivity.
  - eexists. split; vm_compute; reflexivity.
  - eexists. split; vm_compute; reflexivity.
  - exists manual, pydantic. repeat split; try assumption.
    + intros ->. vm_compute in Hm, Hp. injection Hp as <-. discriminate Hm.
    + now rewrite Hlm, Hlp.
Defined.

(** ** The user services and their store *)

Section CurrentFrame.
Variable json : TextCodec.
Variable now : Z.
Variable users : gmap pykey Current.User.
Variable request_bytes : bytes.

Lemma current_get_user_frame :
  fst (Current.get_user json users request_bytes) = users.
Proof.
  unfold Current.get_user.
  destruct (Current.deserialize_get_user_request json request_bytes) as [request|e];
    [|reflexivity].
  destruct (key_of (Current.requested_id request)); reflexivity.
Qed.

Lemma current_create_user_store :
  match Current.deserialize_create_user_request json request_bytes with
  | Ok request =>
      match key_of (Current.id (Current.user request)) with
      | Ok k =>
          fst (Current.create_user json now users request_bytes)
          = <[k := Current.user request]> users
      | Raise _ => fst (Current.create_user json now users request_bytes) = users
      end
  | Raise _ => fst (Current.create_user json now users request_bytes) = users
  end.
Proof.
  unfold Current.create_user.
  destruct (Current.deserialize_create_user_request json request_bytes) as [request|e];
    [|reflexivity].
  destruct (key_of (Current.id (Current.user request))); reflexivity.
Qed.

Lemma current_create_user_frame (k' : pykey) :
  fst (Current.create_user json now users request_bytes) !! k' = users !! k' \/
  exists request,
    Current.deserialize_create_user_request json request_bytes = Ok request /\
    key_of (Current.id (Current.user request)) = Ok k'.
Proof.
  pose proof current_create_user_store as H.
  destruct (Current.deserialize_create_user_request json request_bytes) as [request|e].
  - destruct (key_of (Current.id (Current.user request))) as [k|e] eqn:Hk.
    + rewrite H. destruct (decide (k = k')) as [->|Hne].
      * right. exists request. split; [reflexivity | exact Hk].
      * left. now apply lookup_insert_ne.
    + left. now rewrite H.
  - left. now rewrite H.
Qed.
End CurrentFrame.

Section ImprovedFrame.
Variable pyd : TextCodec.
Variable fv : FieldValidators.
Variable serialization_format : Improved.SerializationFormat.
Variable now : Z.
Variable users : gmap Z Improved.User.
Variable request_bytes : bytes.

Lemma improved_get_user_frame :
  fst (Improved.get_user pyd fv serialization_format users request_bytes) = users.
Proof.
  unfold Improved.get_user.
  destruct (Improved.deserialize_model pyd fv request_bytes Improved.ClsGetUserRequest
              serialization_format); reflexivity.
Qed.

Lemma improved_create_user_store :
  match Improved.deserialize_model pyd fv request_bytes Improved.ClsCreateUserRequest
          serialization_format with
  | Ok request =>
      fst (Improved.create_user pyd fv serialization_format now users request_bytes)
      = <[Improved.id (Improved.user request) := Improved.user request]> users
  | Raise _ =>
      fst (Improved.create_user pyd fv serialization_format now users request_bytes) = users
  end.
Proof.
  unfold Improved.create_user.
  destruct (Improved.deserialize_model pyd fv request_bytes Improved.ClsCreateUserRequest
              serialization_format); reflexivity.
Qed.

Lemma improved_create_user_frame (k' : Z) :
  fst (Improved.create_user pyd fv serialization_format now users request_bytes) !! k'
  = users !! k' \/
  exists request : Improved.CreateUserRequest,
    Improved.deserialize_model pyd fv request_bytes Improved.ClsCreateUserRequest
      serialization_format = Ok request /\
    Improved.id (Improved.user request) = k'.
Proof.
  pose proof improved_create_user_store as H.
  destruct (Improved.deserialize_model pyd fv request_bytes Improved.ClsCreateUserRequest
              serialization_format) as [request|e].
  - rewrite H.
    destruct (decide (Improved.id (Improved.user request) = k')) as [Heq|Hne].
    + right. exists request. split; [reflexivity | exact Heq].
    + left. now apply lookup_insert_ne.
  - left. now rewrite H.
Qed.
End ImprovedFrame.

(** C10. In both implementations [get_user] leaves the users map as it was,
    for every state and every request; and after [create_user] every key of
    the map holds what it held before, unless it is the id of the user of
    the request (whose entry becomes that user). *)
Theorem user_service_frame (json pyd : TextCodec) (fv : FieldValidators)
    (fmt : Improved.SerializationFormat) (now : Z)
    (users : gmap pykey Current.User) (users' : gmap Z Improved.User)
    (request_bytes : bytes) :
  fst (Current.get_user json users request_bytes) = users /\
  fst (Improved.get_user pyd fv fmt users' request_bytes) = users' /\
  (forall k : pykey,
      fst (Current.create_user json now users request_bytes) !! k = users !! k \/
      exists request,
        Current.deserialize_create_user_request json request_bytes = Ok request /\
        key_of (Current.id (Current.user request)) = Ok k /\
        fst (Current.create_user json now users request_bytes) !! k
        = Some (Current.user request)) /\
  (forall k : Z,
      fst (Improved.create_user pyd fv fmt now users' request_bytes) !! k = users' !! k \/
      exists request : Improved.CreateUserRequest,
        Improved.deserialize_model pyd fv request_bytes Improved.ClsCreateUserRequest fmt
        = Ok request /\
        Improved.id (Improved.user request) = k /\
        fst (Improved.create_user pyd fv fmt now users' request_bytes) !! k
        = Some (Improved.user request)).
Proof.
  split; [apply current_get_user_frame|].
  split; [apply improved_get_user_frame|].
  split.
  - intros k.
    destruct (current_create_user_frame json now users request_bytes k)
      as [H|(request & Hd & Hk)]; [now left|].
    right. exists request. split; [exact Hd|]. split; [exact Hk|].
    pose proof (current_create_user_store json now users request_bytes) as Hs.
    rewrite Hd, Hk in Hs. rewrite Hs. apply lookup_insert_eq.
  - intros k.
    destruct (improved_create_user_frame pyd fv fmt now users' request_bytes k)
      as [H|(request & Hd & Hk)]; [now left|].
    right. exists request. split; [exact Hd|]. split; [exact Hk|].
    pose proof (improved_create_user_store pyd fv fmt now users' request_bytes) as Hs.
    rewrite Hd in Hs. rewrite Hs, <- Hk. apply lookup_insert_eq.
Qed.

Lemma user_service_frame_witness :
  fst (Improved.create_user RefJson.compact strict_validators Improved.JSON 1700000000
         two_users create_john_bytes) !! 2 = two_users !! 2 /\
  fst (Improved.get_user RefJson.compact strict_validators Improved.JSON
         two_users create_john_bytes) = two_users.
Proof.
  pose proof (user_service_frame RefJson.json RefJson.compact strict_validators
                Improved.JSON 1700000000 ∅ two_users create_john_bytes)
    as (_ & Hget & _ & Hcreate).
  split; [|exact Hget].
  destruct (Hcreate 2) as [H|(request & Hd & Hk & _)]; [exact H|].
  vm_compute in Hd. injection Hd as <-. discriminate Hk.
Defined.

(** * Further properties of the code *)

(** ** Strings *)

Lemma append_cons (c : ascii) (s t : string) : String c s +:+ t = String c (s +:+ t).
Proof. reflexivity. Qed.

Lemma append_empty_l (s : string) : "" +:+ s = s.
Proof. reflexivity. Qed.

Lemma append_empty_r (s : string) : s +:+ "" = s.
Proof. induction s as [|c s IH]; [reflexivity|]. now rewrite append_cons, IH. Qed.

Lemma append_assoc (s t u : string) : (s +:+ t) +:+ u = s +:+ (t +:+ u).
Proof.
  induction s as [|c s IH]; [reflexivity|]. now rewrite !append_cons, IH.
Qed.

Lemma append_not_empty (s t : string) : s <> "" -> s +:+ t <> "".
Proof. destruct s; [congruence|]. rewrite append_cons. discriminate. Qed.

Lemma join_cons (n : string) (names : list string) :
  join ", " (n :: names) = n +:+ tail_join names.
Proof.
  revert n. induction names as [|n' names IH]; intros n.
  - simpl. now rewrite append_empty_r.
  - change (join ", " (n :: n' :: names)) with (n +:+ ", " +:+ join ", " (n' :: names)).
    rewrite IH. simpl tail_join. reflexivity.
Qed.

(** The number of pieces does not depend on the piece under construction. *)
Lemma split_go_length_cur (sep s : string) :
  forall (skip : nat) (cur cur' : string),
    length (split_go sep skip cur s) = length (split_go sep skip cur' s).
Proof.
  induction s as [|c s IH]; intros skip cur cur'; [reflexivity|].
  cbn [split_go]. destruct skip as [|k]; [|apply IH].
  destruct (String.prefix sep (String c s)); [reflexivity | apply IH].
Qed.

(** The separator is a prefix only of a text that starts with a comma and a
    space. *)
Lemma prefix_separator (c : ascii) (x : string) :
  String.prefix ", " (String c x) = true ->
  c = ","%char /\ exists x', x = String " " x'.
Proof.
  intros H. cbn [String.prefix] in H.
  destruct (ascii_dec "," c) as [<-|]; [|discriminate H].
  split; [reflexivity|].
  destruct x as [|c' x']; cbn [String.prefix] in H; [discriminate H|].
  destruct (ascii_dec " " c') as [<-|]; [|discriminate H].
  eauto.
Qed.

(** A name without separator adds no piece, whatever follows it: the end
    of the text or a separator. *)
Lemma split_go_skips_name (n : string) :
  contains ", " n = false ->
  forall (cur rest : string),
    (rest = "" \/ exists r, rest = ", " +:+ r) ->
    length (split_go ", " 0 cur (n +:+ rest))
    = length (split_go ", " 0 "" rest).
Proof.
  induction n as [|c n IH]; intros Hn cur rest Hrest.
  - rewrite append_empty_l. apply split_go_length_cur.
  - cbn [contains] in Hn. apply orb_false_iff in Hn as [Hp Hn].
    rewrite append_cons. cbn [split_go].
    assert (Hpre : String.prefix ", " (String c (n +:+ rest)) = false).
    { destruct (String.prefix ", " (String c (n +:+ rest))) eqn:E; [|reflexivity].
      apply prefix_separator in E as [-> [x' Hx]].
      destruct n as [|c' n'].
      - rewrite append_empty_l in Hx.
        destruct Hrest as [->|[r ->]]; discriminate Hx.
      - rewrite append_cons in Hx. injection Hx as -> _.
        cbn [String.prefix] in Hp.
        destruct (ascii_dec "," ","); [|congruence].
        destruct (ascii_dec " " " "); [|congruence].
        destruct n'; discriminate Hp. }
    rewrite Hpre. now apply IH.
Qed.

Lemma split_go_separator (cur r : string) :
  length (split_go ", " 0 cur (", " +:+ r)) = S (length (split_go ", " 0 "" r)).
Proof.
  rewrite !append_cons, append_empty_l. cbn [split_go].
  assert (Hp : String.prefix ", " (String "," (String " " r)) = true).
  { cbn [String.prefix]. destruct (ascii_dec "," ","); [|congruence].
    destruct (ascii_dec " " " "); [|congruence]. now destruct r. }
  rewrite Hp. reflexivity.
Qed.

(** Joined plain names split into as many pieces as there are names. *)
Lemma split_join_length (n : string) (names : list string) :
  Forall (fun x => plain_name x = true) (n :: names) ->
  length (split_go ", " 0 "" (n +:+ tail_join names)) = S (length names).
Proof.
  revert n. induction names as [|n' names IH]; intros n Hall.
  - apply Forall_cons_1 in Hall as [Hn _].
    unfold plain_name in Hn. apply andb_true_iff in Hn as [_ Hn].
    apply negb_true_iff in Hn.
    simpl tail_join. rewrite (split_go_skips_name n Hn "" ""); [reflexivity | now left].
  - apply Forall_cons_1 in Hall as [Hn Hrest].
    unfold plain_name in Hn. apply andb_true_iff in Hn as [_ Hn].
    apply negb_true_iff in Hn.
    simpl tail_join.
    rewrite (split_go_skips_name n Hn "" (", " +:+ n' +:+ tail_join names));
      [|right; eexists; reflexivity].
    rewrite split_go_separator, (IH n' Hrest). reflexivity.
Qed.

(** ** stream/server.py: the loop of process_names *)

Lemma process_loop_carried (reqs : list Common.RequestMessage) (names : list string) :
  Forall2 carries_name reqs names ->
  forall (combined : string) (out : list event) (rest : list Common.RequestMessage),
    Streaming.process_loop combined out (reqs ++ rest)
    = Streaming.process_loop (fold_left add_name names combined)
        (out ++ map received_line names) rest.
Proof.
  induction 1 as [|request n reqs names Hc _ IH]; intros combined out rest.
  - simpl. now rewrite app_nil_r.
  - simpl. unfold carries_name in Hc. rewrite Hc.
    rewrite IH, <- app_assoc. reflexivity.
Qed.

Lemma add_names_not_empty (names : list string) :
  forall combined, combined <> "" ->
    fold_left add_name names combined = combined +:+ tail_join names.
Proof.
  induction names as [|n names IH]; intros combined Hne; simpl.
  - now rewrite append_empty_r.
  - assert (Hadd : add_name combined n = combined +:+ ", " +:+ n).
    { unfold add_name. apply String.eqb_neq in Hne. rewrite Hne. simpl.
      now rewrite append_assoc. }
    rewrite Hadd, IH.
    + now rewrite !append_assoc.
    + now apply append_not_empty.
Qed.

Lemma add_names_empty (names : list string) :
  Forall (fun n => n = "") names -> fold_left add_name names "" = "".
Proof. induction 1 as [|n names -> _ IH]; [reflexivity | exact IH]. Qed.

(** X1. When every name of the stream is non-empty and free of the
    separator ", " (and there is at least one), [process_names] prints the
    names in order and replies with their number and the names joined by
    ", ". *)
Theorem process_names_counts_plain_names
    (reqs : list Common.RequestMessage) (names : list string) :
  Forall2 carries_name reqs names ->
  names <> [] ->
  Forall (fun n => plain_name n = true) names ->
  Streaming.process_names reqs
  = (map received_line names,
     Ok ("Processed " +:+ pretty (length names) +:+ " names: " +:+ join ", " names)).
Proof.
  intros Hc Hne Hplain. destruct names as [|n names]; [congruence|].
  unfold Streaming.process_names.
  rewrite <- (app_nil_r reqs), (process_loop_carried reqs (n :: names) Hc "" [] []).
  assert (Hn : n <> "").
  { apply Forall_cons_1 in Hplain as [Hn _]. unfold plain_name in Hn.
    apply andb_true_iff in Hn as [Hn _]. apply negb_true_iff in Hn.
    now apply String.eqb_neq. }
  simpl fold_left. change (add_name "" n) with n.
  rewrite (add_names_not_empty names n Hn), join_cons.
  simpl. rewrite (split_join_length n names Hplain). reflexivity.
Qed.

Lemma process_names_counts_plain_names_witness :
  Streaming.process_names (map name_request ["Ann"; "Li, Wei"%string; "O'Neil"])
  <> (map received_line ["Ann"; "Li, Wei"; "O'Neil"],
      Ok "Processed 3 names: Ann, Li, Wei, O'Neil") /\
  Streaming.process_names (map name_request ["Ann"; "Li,"; "O'Neil"])
  = (map received_line ["Ann"; "Li,"; "O'Neil"],
     Ok "Processed 3 names: Ann, Li,, O'Neil").
Proof.
  split; [vm_compute; discriminate|].
  apply (process_names_counts_plain_names
           (map name_request ["Ann"; "Li,"; "O'Neil"]) ["Ann"; "Li,"; "O'Neil"]).
  - repeat constructor.
  - discriminate.
  - repeat constructor.
Defined.

(** X2. [process_names] stops at the first request it cannot use: a name
    that is not a string raises TypeError after its line was printed, params
    that are not a dict raise AttributeError before anything is printed for
    that request; the names before it were printed in order and no later
    request is looked at. *)
Theorem process_names_stops_at_bad_request
    (good : list Common.RequestMessage) (names : list string)
    (bad : Common.RequestMessage) (rest : list Common.RequestMessage) :
  Forall2 carries_name good names ->
  (forall v, get_default (Common.params bad) "name" (PStr "") = Ok v ->
             is_str v = false ->
             Streaming.process_names (good ++ bad :: rest)
             = ((map received_line names ++ [Print ("Received name: " +:+ py_format v)])%list,
                Raise TypeError)) /\
  (is_dict (Common.params bad) = false ->
   Streaming.process_names (good ++ bad :: rest)
   = (map received_line names, Raise AttributeError)).
Proof.
  intros Hc. unfold Streaming.process_names.
  rewrite (process_loop_carried good names Hc "" [] (bad :: rest)). simpl. split.
  - intros v Hv Hs. rewrite Hv. destruct v; try discriminate Hs; reflexivity.
  - intros Hd. destruct (Common.params bad); try discriminate Hd; reflexivity.
Qed.

Lemma process_names_stops_at_bad_request_witness :
  Streaming.process_names
    [name_request "Ann";
     {| Common.method := PStr "processNames"; Common.params := PDict [("name", PInt 7)] |};
     name_request "Bob"]
  = ([Print "Received name: Ann"; Print "Received name: 7"], Raise TypeError) /\
  Streaming.process_names
    [name_request "Ann";
     {| Common.method := PStr "processNames"; Common.params := PList [] |}]
  = ([Print "Received name: Ann"], Raise AttributeError).
Proof.
  split.
  - exact (proj1 (process_names_stops_at_bad_request
             [name_request "Ann"] ["Ann"]
             {| Common.method := PStr "processNames";
                Common.params := PDict [("name", PInt 7)] |}
             [name_request "Bob"] ltac:(repeat constructor))
             (PInt 7) eq_refl eq_refl).
  - exact (proj2 (process_names_stops_at_bad_request
             [name_request "Ann"] ["Ann"]
             {| Common.method := PStr "processNames"; Common.params := PList [] |}
             [] ltac:(repeat constructor)) eq_refl).
Defined.

(** X3. When the stream has no request, or only requests whose name is empty
    or absent, [process_names] still reports one name:
    "Processed 1 names: ". *)
Theorem process_names_of_no_name (reqs : list Common.RequestMessage) :
  Forall (fun request => carries_name request "") reqs ->
  snd (Streaming.process_names reqs) = Ok "Processed 1 names: ".
Proof.
  intros H.
  assert (Hc : Forall2 carries_name reqs (map (fun _ => "") reqs)).
  { induction H as [|request reqs Hr _ IH]; simpl; constructor; assumption. }
  unfold Streaming.process_names.
  rewrite <- (app_nil_r reqs), (process_loop_carried reqs _ Hc "" [] []).
  rewrite add_names_empty; [reflexivity|].
  clear. induction reqs; simpl; constructor; auto.
Qed.

Lemma process_names_of_no_name_witness :
  snd (Streaming.process_names []) = Ok "Processed 1 names: " /\
  snd (Streaming.process_names
         [{| Common.method := PStr "processNames"; Common.params := PDict [] |};
          name_request ""])
  = Ok "Processed 1 names: ".
Proof.
  split.
  - exact (process_names_of_no_name [] ltac:(constructor)).
  - exact (process_names_of_no_name _ ltac:(repeat constructor)).
Defined.

(** ** server/server.py: the generator on a bad request, and the dialog *)

Lemma chat_from_app (good : list Common.RequestMessage) (msgs : list string) :
  Forall2 carries good msgs ->
  forall (n : nat) (rest : list Common.RequestMessage),
  exists evs,
    yields evs = map Chat.respond msgs /\
    Chat.chat_from n (good ++ rest)
    = ((evs ++ fst (Chat.chat_from (n + length good) rest))%list,
       snd (Chat.chat_from (n + length good) rest)).
Proof.
  induction 1 as [|request m good msgs Hc _ IH]; intros n rest.
  - exists []. split; [reflexivity|]. simpl. rewrite Nat.add_0_r.
    now destruct (Chat.chat_from n rest).
  - destruct (chat_step_carries (S n) request m Hc) as [line Hs].
    destruct (IH (S n) rest) as (evs & Hy & Hrun).
    exists (Print line :: Yield (Chat.respond m) :: evs). split.
    + simpl. now rewrite Hy.
    + simpl. rewrite Hs, Hrun.
      replace (n + S (length good))%nat with (S n + length good)%nat by lia.
      reflexivity.
Qed.

(** X4. [ChatServicer.chat] ends with AttributeError at the first request
    whose message is not a string, or whose params are not a dict; by then
    it has yielded, in order, the responses to the messages before it, and
    it yields nothing more (no closing line). *)
Theorem chat_stops_at_bad_request
    (good : list Common.RequestMessage) (msgs : list string)
    (bad : Common.RequestMessage) (rest : list Common.RequestMessage) :
  Forall2 carries good msgs ->
  (forall v, get_default (Common.params bad) "message" (PStr "") = Ok v ->
             is_str v = false ->
             yields (fst (Chat.chat (good ++ bad :: rest))) = map Chat.respond msgs /\
             snd (Chat.chat (good ++ bad :: rest)) = Some AttributeError) /\
  (is_dict (Common.params bad) = false ->
   yields (fst (Chat.chat (good ++ bad :: rest))) = map Chat.respond msgs /\
   snd (Chat.chat (good ++ bad :: rest)) = Some AttributeError).
Proof.
  intros Hc. unfold Chat.chat.
  destruct (chat_from_app good msgs Hc 0%nat (bad :: rest)) as (evs & Hy & ->).
  simpl fst. simpl snd. rewrite yields_app, Hy.
  cbn [Chat.chat_from]. unfold Chat.chat_step. split.
  - intros v Hv Hs. rewrite Hv.
    destruct v; try discriminate Hs; simpl; rewrite app_nil_r; split; reflexivity.
  - intros Hd.
    destruct (Common.params bad); try discriminate Hd; simpl; rewrite app_nil_r;
      split; reflexivity.
Qed.

Lemma chat_stops_at_bad_request_witness :
  yields (fst (Chat.chat
                 [chat_request "hello";
                  {| Common.method := PStr "chat";
                     Common.params := PDict [("message", PNone)] |};
                  chat_request "goodbye"]))
  = ["Hello! Welcome to our service!"] /\
  snd (Chat.chat
         [chat_request "hello";
          {| Common.method := PStr "chat"; Common.params := PDict [("message", PNone)] |};
          chat_request "goodbye"])
  = Some AttributeError.
Proof.
  exact (proj1 (chat_stops_at_bad_request
           [chat_request "hello"] ["hello"]
           {| Common.method := PStr "chat"; Common.params := PDict [("message", PNone)] |}
           [chat_request "goodbye"] ltac:(repeat constructor))
           PNone eq_refl eq_refl).
Defined.

(** Encoding a list and decoding the frames gives the images of the
    elements, when each element is carried. *)
Lemma traverse_round_trip {A B : Type} (enc : A -> result bytes)
    (dec : bytes -> result B) (f : A -> B) (l : list A) :
  Forall (fun a => exists b, enc a = Ok b /\ dec b = Ok (f a)) l ->
  exists bs, traverse enc l = Ok bs /\ traverse dec bs = Ok (map f l).
Proof.
  induction 1 as [|a l (b & He & Hd) _ (bs & Ht & Hdt)].
  - exists []. split; reflexivity.
  - exists (b :: bs). simpl. rewrite He, Hd. simpl. rewrite Ht, Hdt. split; reflexivity.
Qed.

Lemma carries_chat_requests (msgs : list string) :
  Forall2 carries (map chat_request msgs) msgs.
Proof. induction msgs; simpl; constructor; [reflexivity | assumption]. Qed.

(** X5. The whole chat dialog through the serializers of server/client.py and
    server/server.py: the messages written by the client are decoded by the
    server to requests on which the generator ends normally, and what the
    client decodes from the serialized responses is, in order, the response
    to each message followed by the closing line (for every list of messages
    whose envelopes, and whose responses' envelopes, orjson carries). *)
Theorem chat_dialog_through_serializers (orjson : TextCodec) (msgs : list string) :
  Forall (fun m => roundtrips orjson (Common.request_obj (chat_request m))) msgs ->
  Forall (fun r => roundtrips orjson (Common.response_obj {| Common.result_ := PStr r |}))
    (map Chat.respond msgs ++ [closing_line (length msgs)]) ->
  exists (frames : list bytes) (reqs : list Common.RequestMessage) (outs : list bytes),
    traverse (Chat.request_serializer orjson) msgs = Ok frames /\
    traverse (Chat.request_deserializer orjson) frames = Ok reqs /\
    snd (Chat.chat reqs) = None /\
    traverse (Chat.response_serializer orjson) (yields (fst (Chat.chat reqs))) = Ok outs /\
    traverse (Chat.response_deserializer orjson) outs
    = Ok (map PStr (map Chat.respond msgs ++ [closing_line (length msgs)])).
Proof.
  intros Hreq Hresp.
  destruct (traverse_round_trip (Chat.request_serializer orjson)
              (Chat.request_deserializer orjson) chat_request msgs)
    as (frames & Hser & Hdes).
  { eapply Forall_impl; [exact Hreq|]. intros m Hm. now apply request_round_trip. }
  destruct (chat_from_yields _ _ (carries_chat_requests msgs) 0%nat) as [Hnone Hy].
  simpl in Hy. fold (Chat.chat (map chat_request msgs)) in Hnone, Hy.
  destruct (traverse_round_trip (Chat.response_serializer orjson)
              (Chat.response_deserializer orjson) PStr
              (map Chat.respond msgs ++ [closing_line (length msgs)]))
    as (outs & Hser' & Hdes').
  { eapply Forall_impl; [exact Hresp|]. intros r Hr.
    destruct (response_round_trip orjson _ Hr) as (b & Hb & Hd).
    exists b. split; [exact Hb|].
    unfold Chat.response_deserializer. now rewrite Hd. }
  exists frames, (map chat_request msgs), outs.
  rewrite Hy. repeat split; assumption.
Qed.

Lemma chat_dialog_through_serializers_witness :
  exists (frames : list bytes) (reqs : list Common.RequestMessage) (outs : list bytes),
    traverse (Chat.request_serializer RefJson.compact)
      ["Hello, I'm the client!"; "What services do you provide?"; "Goodbye!"] = Ok frames /\
    traverse (Chat.request_deserializer RefJson.compact) frames = Ok reqs /\
    snd (Chat.chat reqs) = None /\
    traverse (Chat.response_serializer RefJson.compact) (yields (fst (Chat.chat reqs)))
    = Ok outs /\
    traverse (Chat.response_deserializer RefJson.compact) outs
    = Ok [PStr "Hello! Welcome to our service!";
          PStr "We provide various streaming examples for Dubbo Python.";
          PStr "Goodbye! Have a great day!";
          PStr "Chat session complete. Processed 3 messages."].
Proof.
  apply (chat_dialog_through_serializers RefJson.compact
           ["Hello, I'm the client!"; "What services do you provide?"; "Goodbye!"]).
  - repeat constructor; eexists; split; vm_compute; reflexivity.
  - repeat constructor; eexists; split; vm_compute; reflexivity.
Defined.

(** ** demo/current_approach/serializers.py: round trips *)

Lemma deserialize_address_serialize (a : option Current.Address) :
  Current.deserialize_address (Current.serialize_address a) = Ok a.
Proof. destruct a as [[s c n p]|]; reflexivity. Qed.

(** X6. [deserialize_user] is a left inverse of [serialize_user] on every
    dataclass user, with or without an address: no field is lost or changed
    by a pass through the dictionary form. *)
Theorem deserialize_user_serialize (u : Current.User) :
  Current.deserialize_user (Current.serialize_user u) = Ok u.
Proof.
  destruct u as [i n e a r ad m].
  unfold Current.deserialize_user, Current.serialize_user, get_default.
  cbn [dict_get String.eqb Ascii.eqb Bool.eqb bind
       Current.id Current.name Current.email Current.active Current.roles
       Current.address Current.metadata].
  rewrite deserialize_address_serialize. reflexivity.
Qed.

Section CurrentCodecs.
Variable json : TextCodec.

Lemma create_user_request_of_loads (data : bytes) (r : Current.CreateUserRequest) :
  loads json data = Ok (create_user_request_obj r) ->
  Current.deserialize_create_user_request json data = Ok r.
Proof.
  intros H. unfold Current.deserialize_create_user_request. rewrite H.
  destruct r as [u]. unfold create_user_request_obj, get_default.
  cbn [dict_get String.eqb Ascii.eqb Bool.eqb bind Current.user].
  now rewrite deserialize_user_serialize.
Qed.

Lemma create_user_response_of_loads (data : bytes) (r : Current.CreateUserResponse) :
  loads json data = Ok (create_user_response_obj r) ->
  Current.deserialize_create_user_response json data = Ok r.
Proof.
  intros H. unfold Current.deserialize_create_user_response. rewrite H.
  destruct r as [u st t]. unfold create_user_response_obj, get_default.
  cbn [dict_get String.eqb Ascii.eqb Bool.eqb bind
       Current.created_user Current.status Current.created_at].
  now rewrite deserialize_user_serialize.
Qed.

Lemma get_user_request_of_loads (data : bytes) (r : Current.GetUserRequest) :
  loads json data = Ok (get_user_request_obj r) ->
  Current.deserialize_get_user_request json data = Ok r.
Proof.
  intros H. unfold Current.deserialize_get_user_request. rewrite H.
  destruct r as [i]. reflexivity.
Qed.

Lemma get_user_response_of_loads (data : bytes) (r : Current.GetUserResponse) :
  loads json data = Ok (get_user_response_obj r) ->
  Current.deserialize_get_user_response json data = Ok r.
Proof.
  intros H. unfold Current.deserialize_get_user_response. rewrite H.
  destruct r as [[u|]]; [|reflexivity].
  unfold get_user_response_obj, get_default.
  cbn [dict_get String.eqb Ascii.eqb Bool.eqb bind Current.found_user].
  change (truthy (Current.serialize_user u)) with true. cbv iota.
  now rewrite deserialize_user_serialize.
Qed.
End CurrentCodecs.

(** X7. The two codecs of the create operation round-trip: for every
    CreateUserRequest and every CreateUserResponse whose JSON object the json
    library carries, deserializing the serialized bytes gives the value
    back. *)
Theorem create_user_codecs_round_trip (json : TextCodec)
    (request : Current.CreateUserRequest) (response : Current.CreateUserResponse) :
  roundtrips json (create_user_request_obj request) ->
  roundtrips json (create_user_response_obj response) ->
  (exists b, Current.serialize_create_user_request json request = Ok b /\
             Current.deserialize_create_user_request json b = Ok request) /\
  (exists b, Current.serialize_create_user_response json response = Ok b /\
             Current.deserialize_create_user_response json b = Ok response).
Proof.
  intros (b & Hd & Hl) (b' & Hd' & Hl'). split.
  - exists b. split; [exact Hd | now apply create_user_request_of_loads].
  - exists b'. split; [exact Hd' | now apply create_user_response_of_loads].
Qed.

Lemma create_user_codecs_round_trip_witness :
  (exists b, Current.serialize_create_user_request RefJson.json
               (to_current_request create_john) = Ok b /\
             Current.deserialize_create_user_request RefJson.json b
             = Ok (to_current_request create_john)) /\
  (exists b, Current.serialize_create_user_response RefJson.json
               {| Current.created_user := john_manual; Current.status := PStr "created";
                  Current.created_at := PInt 1700000000 |} = Ok b /\
             Current.deserialize_create_user_response RefJson.json b
             = Ok {| Current.created_user := john_manual; Current.status := PStr "created";
                     Current.created_at := PInt 1700000000 |}).
Proof.
  apply create_user_codecs_round_trip.
  - eexists. split; vm_compute; reflexivity.
  - eexists. split; vm_compute; reflexivity.
Defined.

(** X8. The two codecs of the get operation round-trip: for every
    GetUserRequest and every GetUserResponse (with a user or with None)
    whose JSON object the json library carries, deserializing the serialized
    bytes gives the value back. *)
Theorem get_user_codecs_round_trip (json : TextCodec)
    (request : Current.GetUserRequest) (response : Current.GetUserResponse) :
  roundtrips json (get_user_request_obj request) ->
  roundtrips json (get_user_response_obj response) ->
  (exists b, Current.serialize_get_user_request json request = Ok b /\
             Current.deserialize_get_user_request json b = Ok request) /\
  (exists b, Current.serialize_get_user_response json response = Ok b /\
             Current.deserialize_get_user_response json b = Ok response).
Proof.
  intros (b & Hd & Hl) (b' & Hd' & Hl'). split.
  - exists b. split; [exact Hd | now apply get_user_request_of_loads].
  - exists b'. split; [exact Hd' | now apply get_user_response_of_loads].
Qed.

Lemma get_user_codecs_round_trip_witness :
  (exists b, Current.serialize_get_user_request RefJson.json
               {| Current.requested_id := PInt 1 |} = Ok b /\
             Current.deserialize_get_user_request RefJson.json b
             = Ok {| Current.requested_id := PInt 1 |}) /\
  (exists b, Current.serialize_get_user_response RefJson.json
               {| Current.found_user := None |} = Ok b /\
             Current.deserialize_get_user_response RefJson.json b
             = Ok {| Current.found_user := None |}).
Proof.
  apply get_user_codecs_round_trip.
  - eexists. split; vm_compute; reflexivity.
  - eexists. split; vm_compute; reflexivity.
Defined.

(** ** demo/current_approach/service.py: the store in use *)

Section CurrentService.
Variable json : TextCodec.
Variable now : Z.
Variable users : gmap pykey Current.User.

Lemma current_create_user_ok (data : bytes) (request : Current.CreateUserRequest)
    (k : pykey) :
  Current.deserialize_create_user_request json data = Ok request ->
  key_of (Current.id (Current.user request)) = Ok k ->
  Current.create_user json now users data
  = (<[k := Current.user request]> users,
     Current.serialize_create_user_response json
       {| Current.created_user := Current.user request;
          Current.status := PStr "created"; Current.created_at := PInt now |}).
Proof. intros Hd Hk. unfold Current.create_user. now rewrite Hd, Hk. Qed.

Lemma current_get_user_ok (store : gmap pykey Current.User) (data : bytes)
    (request : Current.GetUserRequest) (k : pykey) :
  Current.deserialize_get_user_request json data = Ok request ->
  key_of (Current.requested_id request) = Ok k ->
  Current.get_user json store data
  = (store, Current.serialize_get_user_response json
              {| Current.found_user := store !! k |}).
Proof. intros Hd Hk. unfold Current.get_user. now rewrite Hd, Hk. Qed.
End CurrentService.

(** X9. A user stored by [create_user] is the one [get_user] answers with:
    when a create request is accepted and a later get request asks for the
    same key (the same id as a dict key, so [True] finds the user created with
    id 1), the response of [get_user] is the serialized response that holds
    exactly the created user. *)
Theorem created_user_is_found (json : TextCodec) (now : Z)
    (users : gmap pykey Current.User) (create_bytes get_bytes : bytes)
    (created : Current.CreateUserRequest) (asked : Current.GetUserRequest) (k : pykey) :
  Current.deserialize_create_user_request json create_bytes = Ok created ->
  key_of (Current.id (Current.user created)) = Ok k ->
  Current.deserialize_get_user_request json get_bytes = Ok asked ->
  key_of (Current.requested_id asked) = Ok k ->
  snd (Current.get_user json
         (fst (Current.create_user json now users create_bytes)) get_bytes)
  = Current.serialize_get_user_response json
      {| Current.found_user := Some (Current.user created) |}.
Proof.
  intros Hc Hk Hg Hk'.
  rewrite (current_create_user_ok json now users create_bytes created k Hc Hk).
  cbn [fst].
  rewrite (current_get_user_ok json _ get_bytes asked k Hg Hk'). cbn [snd].
  now rewrite lookup_insert_eq.
Qed.

Lemma created_user_is_found_witness :
  snd (Current.get_user RefJson.json
         (fst (Current.create_user RefJson.json 1700000000 ∅ create_john_manual_bytes))
         get_true_bytes)
  = Current.serialize_get_user_response RefJson.json
      {| Current.found_user := Some john_manual |}.
Proof.
  apply (created_user_is_found RefJson.json 1700000000 ∅ create_john_manual_bytes
           get_true_bytes {| Current.user := john_manual |}
           {| Current.requested_id := PBool true |} (KInt 1));
    vm_compute; reflexivity.
Defined.

(** X10. [get_user] answers a request for an id that is not in the store
    with the encoding of the object whose "user" is null, and a request
    object without an "id" is a request for the user with id 0. *)
Theorem get_user_missing (json : TextCodec) (users : gmap pykey Current.User)
    (data : bytes) :
  (forall request k,
      Current.deserialize_get_user_request json data = Ok request ->
      key_of (Current.requested_id request) = Ok k ->
      users !! k = None ->
      snd (Current.get_user json users data) = dumps json (PDict [("user", PNone)])) /\
  (forall d,
      loads json data = Ok (PDict d) ->
      dict_get "id" d = None ->
      snd (Current.get_user json users data)
      = Current.serialize_get_user_response json
          {| Current.found_user := users !! KInt 0 |}).
Proof.
  split.
  - intros request k Hd Hk Hnone.
    rewrite (current_get_user_ok json users data request k Hd Hk). cbn [snd].
    rewrite Hnone. reflexivity.
  - intros d Hl Hid.
    rewrite (current_get_user_ok json users data
               {| Current.requested_id := PInt 0 |} (KInt 0)); [reflexivity| |reflexivity].
    unfold Current.deserialize_get_user_request. rewrite Hl. simpl. now rewrite Hid.
Qed.

Lemma get_user_missing_witness :
  snd (Current.get_user RefJson.json ∅ get_true_bytes)
  = dumps RefJson.json (PDict [("user", PNone)]) /\
  snd (Current.get_user RefJson.json
         (<[KInt 0 := john_manual]> ∅) "{}")
  = Current.serialize_get_user_response RefJson.json
      {| Current.found_user := Some john_manual |}.
Proof.
  split.
  - apply (proj1 (get_user_missing RefJson.json ∅ get_true_bytes)
             {| Current.requested_id := PBool true |} (KInt 1));
      vm_compute; reflexivity.
  - rewrite (proj2 (get_user_missing RefJson.json (<[KInt 0 := john_manual]> ∅) "{}")
               [] eq_refl eq_refl).
    now rewrite lookup_insert_eq.
Defined.

(** X11. A request that [create_user] cannot store is refused without a
    trace: when the bytes do not decode, the decoder's exception is raised,
    and when the id of the user is a list or a dict (unhashable), TypeError
    is raised; in both cases the users map is the one before the call. *)
Theorem create_user_refuses (json : TextCodec) (now : Z)
    (users : gmap pykey Current.User) (data : bytes) :
  (forall e, Current.deserialize_create_user_request json data = Raise e ->
             Current.create_user json now users data = (users, Raise e)) /\
  (forall request,
      Current.deserialize_create_user_request json data = Ok request ->
      unhashable (Current.id (Current.user request)) = true ->
      Current.create_user json now users data = (users, Raise TypeError)).
Proof.
  split.
  - intros e H. unfold Current.create_user. now rewrite H.
  - intros request H Hu. unfold Current.create_user. rewrite H.
    destruct (Current.id (Current.user request)); try discriminate Hu; reflexivity.
Qed.

Lemma create_user_refuses_witness :
  Current.create_user RefJson.json 1700000000 (<[KInt 0 := john_manual]> ∅) "{"
  = (<[KInt 0 := john_manual]> ∅, Raise JSONDecodeError) /\
  Current.create_user RefJson.json 1700000000 (<[KInt 0 := john_manual]> ∅)
    create_listed_id_bytes
  = (<[KInt 0 := john_manual]> ∅, Raise TypeError).
Proof.
  split.
  - apply (proj1 (create_user_refuses RefJson.json 1700000000
                    (<[KInt 0 := john_manual]> ∅) "{")).
    vm_compute. reflexivity.
  - apply (proj2 (create_user_refuses RefJson.json 1700000000
                    (<[KInt 0 := john_manual]> ∅) create_listed_id_bytes)
             {| Current.user :=
                  {| Current.id := PList [PInt 1]; Current.name := PStr "x";
                     Current.email := PStr ""; Current.active := PBool true;
                     Current.roles := PList []; Current.address := None;
                     Current.metadata := PDict [] |} |});
      vm_compute; reflexivity.
Defined.

(** X12. Creating a user under an id that is already taken replaces the
    stored user: after two accepted create requests for the same key, the
    users map is the one before the calls with the user of the second
    request under that key; the key holds that user, the user of the first
    request is gone, and every other key is as before. *)
Theorem create_user_last_wins (json : TextCodec) (now now' : Z)
    (users : gmap pykey Current.User) (first second : bytes)
    (r1 r2 : Current.CreateUserRequest) (k : pykey) :
  Current.deserialize_create_user_request json first = Ok r1 ->
  Current.deserialize_create_user_request json second = Ok r2 ->
  key_of (Current.id (Current.user r1)) = Ok k ->
  key_of (Current.id (Current.user r2)) = Ok k ->
  fst (Current.create_user json now'
         (fst (Current.create_user json now users first)) second)
  = <[k := Current.user r2]> users /\
  fst (Current.create_user json now'
         (fst (Current.create_user json now users first)) second) !! k
  = Some (Current.user r2) /\
  fst (Current.create_user json now users first) !! k = Some (Current.user r1) /\
  (forall k', k' <> k ->
     fst (Current.create_user json now'
            (fst (Current.create_user json now users first)) second) !! k'
     = users !! k').
Proof.
  intros H1 H2 K1 K2.
  rewrite (current_create_user_ok json now users first r1 k H1 K1). cbn [fst].
  rewrite (current_create_user_ok json now' _ second r2 k H2 K2). cbn [fst].
  rewrite insert_insert_eq. repeat split.
  - apply lookup_insert_eq.
  - apply lookup_insert_eq.
  - intros k' Hne. apply lookup_insert_ne. congruence.
Qed.

Lemma create_user_last_wins_witness :
  fst (Current.create_user RefJson.json 1 ∅ create_john_manual_bytes) !! KInt 1
  = Some john_manual /\
  fst (Current.create_user RefJson.json 2
         (fst (Current.create_user RefJson.json 1 ∅ create_john_manual_bytes))
         create_jane_manual_bytes) !! KInt 1
  = Some jane_manual /\
  john_manual <> jane_manual.
Proof.
  destruct (create_user_last_wins RefJson.json 1 2 ∅ create_john_manual_bytes
              create_jane_manual_bytes {| Current.user := john_manual |}
              {| Current.user := jane_manual |} (KInt 1))
    as (_ & Hsecond & Hfirst & _); try (vm_compute; reflexivity).
  split; [exact Hfirst|]. split; [exact Hsecond|]. discriminate.
Defined.

(** X13. The response of an accepted [create_user] call decodes, with
    [deserialize_create_user_response], to the stored user, the status
    "created" and the time of the call (when the json library carries the
    response object). *)
Theorem create_user_response_decodes (json : TextCodec) (now : Z)
    (users : gmap pykey Current.User) (data : bytes)
    (request : Current.CreateUserRequest) (k : pykey) :
  Current.deserialize_create_user_request json data = Ok request ->
  key_of (Current.id (Current.user request)) = Ok k ->
  roundtrips json
    (create_user_response_obj
       {| Current.created_user := Current.user request;
          Current.status := PStr "created"; Current.created_at := PInt now |}) ->
  exists b,
    snd (Current.create_user json now users data) = Ok b /\
    Current.deserialize_create_user_response json b
    = Ok {| Current.created_user := Current.user request;
            Current.status := PStr "created"; Current.created_at := PInt now |}.
Proof.
  intros Hd Hk (b & Hw & Hl).
  rewrite (current_create_user_ok json now users data request k Hd Hk). cbn [snd].
  exists b. split; [exact Hw | now apply create_user_response_of_loads].
Qed.

Lemma create_user_response_decodes_witness :
  exists b,
    snd (Current.create_user RefJson.json 1700000000 ∅ create_john_manual_bytes) = Ok b /\
    Current.deserialize_create_user_response RefJson.json b
    = Ok {| Current.created_user := john_manual;
            Current.status := PStr "created"; Current.created_at := PInt 1700000000 |}.
Proof.
  apply (create_user_response_decodes RefJson.json 1700000000 ∅ create_john_manual_bytes
           {| Current.user := john_manual |} (KInt 1)).
  - vm_compute. reflexivity.
  - reflexivity.
  - eexists. split; vm_compute; reflexivity.
Defined.

(** ** demo/improved_approach: the mock protobuf path *)

(** Whatever the bytes, decoding a class with a required field through the
    mock validates the empty dict and fails. *)
Lemma protobuf_deserialize_required (pyd : TextCodec) (fv : FieldValidators)
    (data : bytes) (c : Improved.model_class) :
  c <> Improved.ClsGetUserResponse ->
  Improved.deserialize_model pyd fv data c Improved.PROTOBUF = Raise ValidationError.
Proof.
  intros Hc. rewrite protobuf_deserialize_empty.
  destruct c; try reflexivity. congruence.
Qed.

(** X14. With the PROTOBUF selector (the default of the service) and the mock
    protobuf module, [deserialize_model] ignores the bytes: it raises
    ValidationError for every model class with a required field and returns
    [GetUserResponse(user=None)] for GetUserResponse. *)
Theorem protobuf_deserialize_ignores_bytes (pyd : TextCodec) (fv : FieldValidators)
    (data : bytes) :
  (forall c, c <> Improved.ClsGetUserResponse ->
             Improved.deserialize_model pyd fv data c Improved.PROTOBUF
             = Raise ValidationError) /\
  Improved.deserialize_model pyd fv data Improved.ClsGetUserResponse Improved.PROTOBUF
  = Ok {| Improved.found_user := None |}.
Proof.
  split.
  - intros c Hc. now apply protobuf_deserialize_required.
  - now rewrite protobuf_deserialize_empty.
Qed.

Lemma protobuf_deserialize_ignores_bytes_witness :
  Improved.deserialize_model RefJson.compact strict_validators create_john_bytes
    Improved.ClsCreateUserRequest Improved.PROTOBUF = Raise ValidationError.
Proof.
  apply (proj1 (protobuf_deserialize_ignores_bytes RefJson.compact strict_validators
                  create_john_bytes)).
  discriminate.
Defined.

(** X15. A UserService built with the PROTOBUF format (its default) on the
    mock protobuf module accepts no request: [create_user] and [get_user]
    raise ValidationError for every request and leave the users map as it
    was. *)
Theorem protobuf_service_rejects_all (pyd : TextCodec) (fv : FieldValidators) (now : Z)
    (users : gmap Z Improved.User) (request_bytes : bytes) :
  Improved.create_user pyd fv Improved.PROTOBUF now users request_bytes
  = (users, Raise ValidationError) /\
  Improved.get_user pyd fv Improved.PROTOBUF users request_bytes
  = (users, Raise ValidationError).
Proof.
  split.
  - unfold Improved.create_user.
    now rewrite (protobuf_deserialize_required pyd fv request_bytes
                   Improved.ClsCreateUserRequest).
  - unfold Improved.get_user.
    now rewrite (protobuf_deserialize_required pyd fv request_bytes
                   Improved.ClsGetUserRequest).
Qed.

(** ** demo/improved_approach/models.py: what validation requires *)

Section Requirements.
Import Improved.
Variable fv : FieldValidators.

Ltac use_missing H :=
  rewrite H; cbn [bind];
  repeat match goal with
         | |- context [dict_get ?k ?d] => destruct (dict_get k d); cbn [bind]
         | |- context [bind ?m _] => destruct m; cbn [bind]
         end;
  try discriminate.

Lemma validate_address_requires (d : list (string * pyval)) (k : string) (a : Address) :
  In k (required_fields ClsAddress) -> dict_get k d = None ->
  validate_address fv (PDict d) <> Ok a.
Proof.
  intros Hin Hk. unfold validate_address, required.
  cbn [required_fields In] in Hin.
  destruct Hin as [<-|[<-|[<-|[<-|[]]]]]; use_missing Hk.
Qed.

Lemma validate_user_requires (d : list (string * pyval)) (k : string) (u : User) :
  In k (required_fields ClsUser) -> dict_get k d = None ->
  validate_user fv (PDict d) <> Ok u.
Proof.
  intros Hin Hk. unfold validate_user, required.
  cbn [required_fields In] in Hin.
  destruct Hin as [<-|[<-|[<-|[]]]]; use_missing Hk.
Qed.
End Requirements.

(** X16. Validation against a model class never accepts an object that
    lacks one of the fields the class declares without a default, and
    raises ValidationError on a value that is not an object. *)
Theorem model_validate_requires (fv : FieldValidators) (c : Improved.model_class)
    (v : pyval) :
  (forall d k, v = PDict d -> In k (required_fields c) -> dict_get k d = None ->
               forall m, Improved.model_validate fv c v <> Ok m) /\
  (is_dict v = false -> Improved.model_validate fv c v = Raise ValidationError).
Proof.
  split.
  - intros d k -> Hin Hk m. destruct c; cbn [Improved.model_validate].
    + now apply validate_address_requires with (k := k).
    + now apply validate_user_requires with (k := k).
    + cbn [required_fields In] in Hin. destruct Hin as [<-|[]].
      unfold Improved.required. rewrite Hk. discriminate.
    + cbn [required_fields In] in Hin. unfold Improved.required.
      destruct Hin as [<-|[<-|[<-|[]]]]; rewrite Hk; cbn [bind];
        repeat match goal with
               | |- context [dict_get ?k ?d] => destruct (dict_get k d); cbn [bind]
               | |- context [bind ?x _] => destruct x; cbn [bind]
               end; try discriminate.
    + cbn [required_fields In] in Hin. destruct Hin as [<-|[]].
      unfold Improved.required. rewrite Hk. discriminate.
    + destruct Hin.
  - intros Hd. destruct c; destruct v; try discriminate Hd; reflexivity.
Qed.

Lemma model_validate_requires_witness :
  (forall m, Improved.model_validate strict_validators Improved.ClsUser
               (PDict truncated_user) <> Ok m) /\
  Improved.model_validate strict_validators Improved.ClsUser (PList [])
  = Raise ValidationError.
Proof.
  split.
  - exact (proj1 (model_validate_requires strict_validators Improved.ClsUser
                    (PDict truncated_user))
             truncated_user "email" eq_refl ltac:(simpl; tauto) eq_refl).
  - exact (proj2 (model_validate_requires strict_validators Improved.ClsUser (PList []))
             eq_refl).
Defined.

(** X17. The two approaches agree on the defaults of the optional fields: for
    a user object that has id, name and email of the right types and none of
    active, roles, address, metadata, Pydantic validation returns the user
    with active True, no roles, no address, no metadata, and
    [deserialize_user] returns the corresponding dataclass user. *)
Theorem optional_field_defaults_agree (fv : FieldValidators)
    (d : list (string * pyval)) (i : Z) (n e : string) :
  validators_accept_typed fv ->
  dict_get "id" d = Some (PInt i) ->
  dict_get "name" d = Some (PStr n) ->
  dict_get "email" d = Some (PStr e) ->
  dict_get "active" d = None ->
  dict_get "roles" d = None ->
  dict_get "address" d = None ->
  dict_get "metadata" d = None ->
  Improved.validate_user fv (PDict d) = Ok (user_with_defaults i n e) /\
  Current.deserialize_user (PDict d) = Ok (to_current_user (user_with_defaults i n e)).
Proof.
  intros (Hint & Hstr & _) Hi Hn He Hact Hro Had Hme. split.
  - unfold Improved.validate_user, Improved.required, Improved.with_default.
    rewrite Hi, Hn, He, Hact, Hro, Had, Hme, Hint, !Hstr. reflexivity.
  - rewrite (deserialize_user_defaults d Had), Hi, Hn, He, Hact, Hro, Hme. reflexivity.
Qed.

Lemma optional_field_defaults_agree_witness :
  Improved.validate_user strict_validators
    (PDict [("id", PInt 1); ("name", PStr "John Doe"); ("email", PStr "john@example.com")])
  = Ok (user_with_defaults 1 "John Doe" "john@example.com") /\
  Current.deserialize_user
    (PDict [("id", PInt 1); ("name", PStr "John Doe"); ("email", PStr "john@example.com")])
  = Ok john_manual.
Proof.
  apply (optional_field_defaults_agree strict_validators
           [("id", PInt 1); ("name", PStr "John Doe"); ("email", PStr "john@example.com")]
           1 "John Doe" "john@example.com" strict_validators_accept_typed);
    reflexivity.
Defined.

(** ** demo/improved_approach/service.py: the store in use *)

Section ImprovedService.
Variable pyd : TextCodec.
Variable fv : FieldValidators.
Variable fmt : Improved.SerializationFormat.
Variable now : Z.

Lemma improved_create_user_ok (users : gmap Z Improved.User) (data : bytes)
    (request : Improved.CreateUserRequest) :
  Improved.deserialize_model pyd fv data Improved.ClsCreateUserRequest fmt = Ok request ->
  Improved.create_user pyd fv fmt now users data
  = (<[Improved.id (Improved.user request) := Improved.user request]> users,
     Improved.serialize_model pyd Improved.ClsCreateUserResponse
       {| Improved.created_user := Improved.user request;
          Improved.status := "created"; Improved.created_at := now |} fmt).
Proof. intros H. unfold Improved.create_user. now rewrite H. Qed.

Lemma improved_get_user_ok (users : gmap Z Improved.User) (data : bytes)
    (request : Improved.GetUserRequest) :
  Improved.deserialize_model pyd fv data Improved.ClsGetUserRequest fmt = Ok request ->
  Improved.get_user pyd fv fmt users data
  = (users,
     Improved.serialize_model pyd Improved.ClsGetUserResponse
       {| Improved.found_user := users !! Improved.requested_id request |} fmt).
Proof. intros H. unfold Improved.get_user. now rewrite H. Qed.
End ImprovedService.

(** X18. In the Pydantic service too, a user stored by [create_user] is the
    one [get_user] answers with: after an accepted create request, a get
    request for the id of its user is answered with the serialized
    GetUserResponse that holds that user. *)
Theorem improved_created_user_is_found (pyd : TextCodec) (fv : FieldValidators)
    (fmt : Improved.SerializationFormat) (now : Z) (users : gmap Z Improved.User)
    (create_bytes get_bytes : bytes)
    (created : Improved.CreateUserRequest) (asked : Improved.GetUserRequest) :
  Improved.deserialize_model pyd fv create_bytes Improved.ClsCreateUserRequest fmt
  = Ok created ->
  Improved.deserialize_model pyd fv get_bytes Improved.ClsGetUserRequest fmt = Ok asked ->
  Improved.requested_id asked = Improved.id (Improved.user created) ->
  snd (Improved.get_user pyd fv fmt
         (fst (Improved.create_user pyd fv fmt now users create_bytes)) get_bytes)
  = Improved.serialize_model pyd Improved.ClsGetUserResponse
      {| Improved.found_user := Some (Improved.user created) |} fmt.
Proof.
  intros Hc Hg Hid.
  rewrite (improved_create_user_ok pyd fv fmt now users create_bytes created Hc).
  cbn [fst].
  rewrite (improved_get_user_ok pyd fv fmt _ get_bytes asked Hg). cbn [snd].
  now rewrite Hid, lookup_insert_eq.
Qed.

Lemma improved_created_user_is_found_witness :
  snd (Improved.get_user RefJson.compact strict_validators Improved.JSON
         (fst (Improved.create_user RefJson.compact strict_validators Improved.JSON
                 1700000000 ∅ create_john_bytes)) get_one_bytes)
  = Improved.serialize_model RefJson.compact Improved.ClsGetUserResponse
      {| Improved.found_user := Some john |} Improved.JSON.
Proof.
  apply (improved_created_user_is_found RefJson.compact strict_validators Improved.JSON
           1700000000 ∅ create_john_bytes get_one_bytes create_john request_one);
    vm_compute; reflexivity.
Defined.

(** ** The two services side by side *)

Lemma stores_correspond_insert (manual : gmap pykey Current.User)
    (pydantic : gmap Z Improved.User) (u : Improved.User) :
  stores_correspond manual pydantic ->
  stores_correspond (<[KInt (Improved.id u) := to_current_user u]> manual)
                    (<[Improved.id u := u]> pydantic).
Proof.
  intros H k. destruct (decide (KInt (Improved.id u) = k)) as [<-|Hne].
  - now rewrite !lookup_insert_eq.
  - rewrite lookup_insert_ne by exact Hne. rewrite (H k).
    destruct k as [|z|x]; try reflexivity.
    rewrite lookup_insert_ne; [reflexivity | congruence].
Qed.

Lemma create_user_response_objects_equal (u : Improved.User) (now : Z) :
  create_user_response_obj
    {| Current.created_user := to_current_user u;
       Current.status := PStr "created"; Current.created_at := PInt now |}
  = Improved.model_dump Improved.ClsCreateUserResponse
      {| Improved.created_user := u; Improved.status := "created";
         Improved.created_at := now |}.
Proof.
  unfold create_user_response_obj. simpl. now rewrite serialize_user_is_dump.
Qed.

(** X19. The two UserService implementations simulate each other on
    [create_user] with JSON: started from corresponding stores on bytes that
    both JSON readers parse to the object of the same Pydantic request, they
    end in corresponding stores, and their responses are the encodings, each
    by its own writer, of one and the same JSON object. *)
Theorem create_user_services_agree (json pyd : TextCodec) (fv : FieldValidators) (now : Z)
    (manual : gmap pykey Current.User) (pydantic : gmap Z Improved.User)
    (data : bytes) (r : Improved.CreateUserRequest) :
  validators_accept_typed fv ->
  stores_correspond manual pydantic ->
  loads json data = Ok (Improved.model_dump Improved.ClsCreateUserRequest r) ->
  loads pyd data = Ok (Improved.model_dump Improved.ClsCreateUserRequest r) ->
  stores_correspond (fst (Current.create_user json now manual data))
    (fst (Improved.create_user pyd fv Improved.JSON now pydantic data)) /\
  exists obj,
    snd (Current.create_user json now manual data) = dumps json obj /\
    snd (Improved.create_user pyd fv Improved.JSON now pydantic data) = dumps pyd obj.
Proof.
  intros Hfv Hst Hj Hp.
  assert (Hc : Current.deserialize_create_user_request json data
               = Ok (to_current_request r)).
  { apply create_user_request_of_loads. rewrite Hj. f_equal. symmetry.
    apply create_user_request_objects_equal. }
  assert (Hi : Improved.deserialize_model pyd fv data Improved.ClsCreateUserRequest
                 Improved.JSON = Ok r).
  { unfold Improved.deserialize_model, Improved.deserialize, Improved.model_validate_json.
    rewrite Hp. now apply model_validate_dump. }
  rewrite (current_create_user_ok json now manual data (to_current_request r)
             (KInt (Improved.id (Improved.user r))) Hc eq_refl).
  rewrite (improved_create_user_ok pyd fv Improved.JSON now pydantic data r Hi).
  cbn [fst snd]. split.
  - now apply stores_correspond_insert.
  - exists (Improved.model_dump Improved.ClsCreateUserResponse
              {| Improved.created_user := Improved.user r; Improved.status := "created";
                 Improved.created_at := now |}).
    split; [|reflexivity].
    unfold Current.serialize_create_user_response.
    change (Current.user (to_current_request r)) with (to_current_user (Improved.user r)).
    apply (f_equal (dumps json)).
    apply (create_user_response_objects_equal (Improved.user r) now).
Qed.

Lemma stores_correspond_empty : stores_correspond ∅ ∅.
Proof. intros [|z|x]; rewrite ?lookup_empty; reflexivity. Qed.

Lemma create_user_services_agree_witness :
  stores_correspond
    (fst (Current.create_user RefJson.json 1700000000 ∅ create_john_bytes))
    (fst (Improved.create_user RefJson.compact strict_validators Improved.JSON
            1700000000 ∅ create_john_bytes)).
Proof.
  refine (proj1 (create_user_services_agree RefJson.json RefJson.compact strict_validators
                   1700000000 ∅ ∅ create_john_bytes create_john
                   strict_validators_accept_typed stores_correspond_empty _ _));
    vm_compute; reflexivity.
Defined.

(** X20. The two services also agree on [get_user] with JSON: on
    corresponding stores and bytes that both JSON readers parse to the
    request object for an integer id, neither changes its store and their
    responses are the encodings, each by its own writer, of one and the same
    JSON object (the user under that id, or null). *)
Theorem get_user_services_agree (json pyd : TextCodec) (fv : FieldValidators)
    (manual : gmap pykey Current.User) (pydantic : gmap Z Improved.User)
    (data : bytes) (i : Z) :
  validators_accept_typed fv ->
  stores_correspond manual pydantic ->
  loads json data = Ok (PDict [("id", PInt i)]) ->
  loads pyd data = Ok (PDict [("id", PInt i)]) ->
  exists obj,
    Current.get_user json manual data = (manual, dumps json obj) /\
    Improved.get_user pyd fv Improved.JSON pydantic data = (pydantic, dumps pyd obj).
Proof.
  intros Hfv Hst Hj Hp.
  assert (Hc : Current.deserialize_get_user_request json data
               = Ok {| Current.requested_id := PInt i |}).
  { unfold Current.deserialize_get_user_request. rewrite Hj. reflexivity. }
  assert (Hi : Improved.deserialize_model pyd fv data Improved.ClsGetUserRequest
                 Improved.JSON = Ok {| Improved.requested_id := i |}).
  { unfold Improved.deserialize_model, Improved.deserialize, Improved.model_validate_json.
    rewrite Hp.
    apply (model_validate_dump fv Hfv Improved.ClsGetUserRequest
             {| Improved.requested_id := i |}). }
  rewrite (current_get_user_ok json manual data _ (KInt i) Hc eq_refl).
  rewrite (improved_get_user_ok pyd fv Improved.JSON pydantic data _ Hi).
  exists (Improved.model_dump Improved.ClsGetUserResponse
            {| Improved.found_user := pydantic !! i |}).
  split; [|reflexivity].
  unfold Current.serialize_get_user_response. cbn [Current.found_user].
  rewrite (Hst (KInt i)). cbn [Improved.requested_id].
  destruct (pydantic !! i) as [u|]; cbn [fmap option_fmap option_map];
    [|reflexivity].
  simpl. now rewrite serialize_user_is_dump.
Qed.

Lemma get_user_services_agree_witness :
  exists obj,
    Current.get_user RefJson.json ∅ get_one_bytes = (∅, dumps RefJson.json obj) /\
    Improved.get_user RefJson.compact strict_validators Improved.JSON ∅ get_one_bytes
    = (∅, dumps RefJson.compact obj).
Proof.
  apply (get_user_services_agree RefJson.json RefJson.compact strict_validators
           ∅ ∅ get_one_bytes 1 strict_validators_accept_typed stores_correspond_empty);
    vm_compute; reflexivity.
Defined.

(** ** server/common.py: what deserialize accepts *)

(** X21. [RequestMessage.deserialize] returns a message exactly when the
    bytes parse to an object that has both "method" and "params", and the
    message holds the two values found there; [ResponseMessage.deserialize]
    likewise with "result". Neither fills in a default. *)
Theorem deserialize_exactly_when_keys_present (orjson : TextCodec) (data : bytes)
    (m : Common.RequestMessage) (r : Common.ResponseMessage) :
  (Common.deserialize orjson data = Ok m <->
   exists d, loads orjson data = Ok (PDict d) /\
             dict_get "method" d = Some (Common.method m) /\
             dict_get "params" d = Some (Common.params m)) /\
  (Common.deserialize_response orjson data = Ok r <->
   exists d, loads orjson data = Ok (PDict d) /\
             dict_get "result" d = Some (Common.result_ r)).
Proof.
  split; split.
  - unfold Common.deserialize. intros H.
    destruct (loads orjson data) as [v|]; [|discriminate H].
    destruct v as [| | | | |d]; try discriminate H. exists d. simpl in H.
    destruct (dict_get "method" d) as [x|]; [|discriminate H]. simpl in H.
    destruct (dict_get "params" d) as [y|]; [|discriminate H]. simpl in H.
    injection H as <-. repeat split.
  - intros (d & Hl & Hm & Hp). unfold Common.deserialize. rewrite Hl. simpl.
    rewrite Hm. simpl. rewrite Hp. simpl. now destruct m.
  - unfold Common.deserialize_response. intros H.
    destruct (loads orjson data) as [v|]; [|discriminate H].
    destruct v as [| | | | |d]; try discriminate H. exists d. simpl in H.
    destruct (dict_get "result" d) as [x|]; [|discriminate H]. simpl in H.
    injection H as <-. repeat split.
  - intros (d & Hl & Hr). unfold Common.deserialize_response. rewrite Hl. simpl.
    rewrite Hr. simpl. now destruct r.
Qed.

(** ** demo/current_approach/serializers.py: addresses *)

(** X22. [deserialize_address] returns None for every falsy value (null,
    but also an empty object, an empty list, 0, false or an empty string),
    builds an Address from a non-empty object with "" for each absent key,
    and raises AttributeError on any other truthy value. *)
Theorem deserialize_address_cases (data : pyval) :
  (truthy data = false -> Current.deserialize_address data = Ok None) /\
  (forall d, data = PDict d -> d <> [] ->
     Current.deserialize_address data
     = Ok (Some {| Current.street := default (PStr "") (dict_get "street" d);
                   Current.city := default (PStr "") (dict_get "city" d);
                   Current.country := default (PStr "") (dict_get "country" d);
                   Current.postal_code := default (PStr "") (dict_get "postal_code" d) |})) /\
  (truthy data = true -> is_dict data = false ->
   Current.deserialize_address data = Raise AttributeError).
Proof.
  unfold Current.deserialize_address. split; [|split].
  - intros ->. reflexivity.
  - intros d -> Hd. destruct d as [|kv d]; [congruence|].
    change (truthy (PDict (kv :: d))) with true. cbn [negb].
    rewrite !get_default_dict. reflexivity.
  - intros -> Hd. cbn [negb].
    now rewrite (get_default_not_dict data "street" (PStr "") Hd).
Qed.

Lemma deserialize_address_cases_witness :
  Current.deserialize_address (PDict []) = Ok None /\
  Current.deserialize_address (PDict [("city", PStr "San Francisco")])
  = Ok (Some {| Current.street := PStr ""; Current.city := PStr "San Francisco";
                Current.country := PStr ""; Current.postal_code := PStr "" |}) /\
  Current.deserialize_address (PStr "94105") = Raise AttributeError.
Proof.
  split; [|split].
  - exact (proj1 (deserialize_address_cases (PDict [])) eq_refl).
  - exact (proj1 (proj2 (deserialize_address_cases (PDict [("city", PStr "San Francisco")])))
             [("city", PStr "San Francisco")] eq_refl ltac:(discriminate)).
  - exact (proj2 (proj2 (deserialize_address_cases (PStr "94105"))) eq_refl eq_refl).
Defined.

(** ** server/client.py: the reader loop *)

Lemma read_responses_before_eof (pre : list ChatClient.read_value) :
  forallb (fun r => negb (is_eof r)) pre = true ->
  forall post,
    ChatClient.read_responses (pre ++ post)
    = ((server_lines pre ++ fst (ChatClient.read_responses post))%list,
       snd (ChatClient.read_responses post)).
Proof.
  induction pre as [|r pre IH]; intros Hpre post.
  - simpl. now destruct (ChatClient.read_responses post).
  - simpl in Hpre. apply andb_true_iff in Hpre as [Hr Hpre].
    destruct r as [|v]; [discriminate Hr|].
    specialize (IH Hpre post).
    destruct v; simpl; rewrite IH; reflexivity.
Qed.

(** X23. The reader of the chat client leaves its loop at the first EOF it
    reads: it has then printed one "Server: ..." line for each response read
    before, in order, skipping every None (a timeout), and last the line
    "Server ended the conversation"; what arrives after the EOF is never
    read. As long as no EOF has been read, it is still at a read. *)
Theorem read_responses_ends_at_first_eof (pre post : list ChatClient.read_value) :
  forallb (fun r => negb (is_eof r)) pre = true ->
  ChatClient.read_responses (pre ++ ChatClient.EOF :: post)
  = ((server_lines pre ++ ["Server ended the conversation"])%list, ChatClient.Ended) /\
  ChatClient.read_responses pre = (server_lines pre, ChatClient.Reading).
Proof.
  intros Hpre. split.
  - now rewrite (read_responses_before_eof pre Hpre).
  - rewrite <- (app_nil_r pre) at 1.
    rewrite (read_responses_before_eof pre Hpre []). simpl. now rewrite app_nil_r.
Qed.

Lemma read_responses_ends_at_first_eof_witness :
  ChatClient.read_responses
    [ChatClient.Value (PStr "Hello! Welcome to our service!"); ChatClient.Value PNone;
     ChatClient.Value (PStr "Goodbye! Have a great day!"); ChatClient.EOF;
     ChatClient.Value (PStr "late")]
  = (["Server: Hello! Welcome to our service!"; "Server: Goodbye! Have a great day!";
      "Server ended the conversation"], ChatClient.Ended).
Proof.
  exact (proj1 (read_responses_ends_at_first_eof
                  [ChatClient.Value (PStr "Hello! Welcome to our service!");
                   ChatClient.Value PNone;
                   ChatClient.Value (PStr "Goodbye! Have a great day!")]
                  [ChatClient.Value (PStr "late")] eq_refl)).
Defined.
